(** * Universal Device Diagnostics: the test engine, embedded and verified

    A shallow embedding of the diagnostic agents
    ([agents/android/diagnostics.py], [agents/windows/diagnostics.py]) and of
    the summary computed by [backend/main.py], followed by the properties of
    the engine that the specification states.  The endpoints of the service
    ([detect_device], [get_device_capabilities], [run_diagnostics]) are
    embedded as well, and further properties of the code close the file.

    Conventions of the embedding.
    - A Python [str] is a [string] whose characters are code points below 256;
      the string methods the agents use are written out in [Module Py] for
      that range.
    - A Python [float] that the program keeps is always either a reading
      divided by ten or the result of [round(_, 1)]; it is held as its number
      of tenths (a [Z]).  The quotient handed to [round] is an exact rational
      and is rounded to the nearest tenth, a tie going to the even one; the
      rounding error of the division and the limits of the double range are
      outside the model.
    - Everything the agents ask of the machine ([subprocess.run], [psutil],
      [tempfile]) goes through an [Env] of oracles that see the whole history
      of earlier calls; every call is appended to that history.
    - An exception is one that [except Exception] catches.  Logging and the
      [timestamp] field are not modelled. *)

From Stdlib Require Import ZArith QArith Qround Qabs String Ascii List DecimalString Lia Lqa.
From Stdlib Require DecimalZ DecimalPos.
From stdpp Require Import gmap strings list.

Open Scope string_scope.
Open Scope list_scope.
Open Scope Z_scope.

(** ** The Python runtime used by the agents *)

Module Py.

Definition ord (c : ascii) : N := N_of_ascii c.

(** [str.isspace] on one character: what [strip], [split] and the regular
    expression class [\s] skip. *)
Definition isspace (c : ascii) : bool :=
  let n := ord c in
  ((9 <=? n) && (n <=? 13) || (28 <=? n) && (n <=? 32)
   || (n =? 133) || (n =? 160))%N.

(** ASCII decimal digits: what [int], [float] and [\d] accept. *)
Definition isdecimal (c : ascii) : bool :=
  let n := ord c in ((48 <=? n) && (n <=? 57))%N.

(** [str.isdigit] on one character also accepts the superscripts
    U+00B2, U+00B3 and U+00B9. *)
Definition isdigit_char (c : ascii) : bool :=
  let n := ord c in
  (isdecimal c || (n =? 178) || (n =? 179) || (n =? 185))%N.

Definition digit_val (c : ascii) : Z := Z.of_N (ord c) - 48.

Fixpoint all_chars (p : ascii -> bool) (s : string) : bool :=
  match s with
  | EmptyString => true
  | String c s' => p c && all_chars p s'
  end.

(** [s.isdigit()] *)
Definition isdigit (s : string) : bool :=
  match s with
  | EmptyString => false
  | _ => all_chars isdigit_char s
  end.

Fixpoint lstrip_by (p : ascii -> bool) (s : string) : string :=
  match s with
  | EmptyString => EmptyString
  | String c s' => if p c then lstrip_by p s' else s
  end.

Fixpoint rstrip_by (p : ascii -> bool) (s : string) : string :=
  match s with
  | EmptyString => EmptyString
  | String c s' =>
      match rstrip_by p s' with
      | EmptyString => if p c then EmptyString else String c EmptyString
      | r => String c r
      end
  end.

(** [s.strip()] *)
Definition strip (s : string) : string := lstrip_by isspace (rstrip_by isspace s).

(** [s.split(sep)] for a one-character separator. *)
Fixpoint split_on (sep : ascii) (s : string) : list string :=
  match s with
  | EmptyString => [EmptyString]
  | String c s' =>
      if Ascii.eqb c sep then EmptyString :: split_on sep s'
      else match split_on sep s' with
           | w :: ws => String c w :: ws
           | [] => [String c EmptyString]
           end
  end.

(** [s.split(sep, 1)] when [sep] occurs in [s]: the text before the first
    separator and the text after it. *)
Fixpoint split_once (sep : ascii) (s : string) : option (string * string) :=
  match s with
  | EmptyString => None
  | String c s' =>
      if Ascii.eqb c sep then Some (EmptyString, s')
      else match split_once sep s' with
           | Some (k, v) => Some (String c k, v)
           | None => None
           end
  end.

(** The word that touches the start of [s] and the words after it. *)
Fixpoint fields (s : string) : string * list string :=
  match s with
  | EmptyString => (EmptyString, [])
  | String c s' =>
      let '(w, ws) := fields s' in
      if isspace c
      then (EmptyString, match w with EmptyString => ws | _ => w :: ws end)
      else (String c w, ws)
  end.

(** [s.split()] *)
Definition split (s : string) : list string :=
  let '(w, ws) := fields s in
  match w with EmptyString => ws | _ => w :: ws end.

(** [sub in s] *)
Fixpoint contains (sub s : string) : bool :=
  String.prefix sub s
  || match s with
     | EmptyString => false
     | String _ s' => contains sub s'
     end.

Definition lower_char (c : ascii) : ascii :=
  let n := ord c in
  if ((65 <=? n) && (n <=? 90)
      || (192 <=? n) && (n <=? 222) && negb (n =? 215))%N
  then ascii_of_N (n + 32) else c.

(** [s.lower()] *)
Fixpoint lower (s : string) : string :=
  match s with
  | EmptyString => EmptyString
  | String c s' => String (lower_char c) (lower s')
  end.

(** [str(n)] for an [int]. *)
Definition str_int (n : Z) : string := NilZero.string_of_int (Z.to_int n).

(** [str(x)] for a float held in tenths: [450] prints as [45.0]. *)
Definition str_float (t : Z) : string :=
  (if t <? 0 then "-" else "")
  +:+ str_int (Z.abs t / 10) +:+ "." +:+ str_int (Z.abs t mod 10).

(** [', '.join(l)] *)
Fixpoint join (sep : string) (l : list string) : string :=
  match l with
  | [] => EmptyString
  | [x] => x
  | x :: l' => x +:+ sep +:+ join sep l'
  end.

(** *** Exceptions *)

Inductive ExnKind := ValueError | ZeroDivisionError | OtherException.

(** An exception object: its class, as far as the handlers tell classes
    apart, and [str(e)]. *)
Record Exn := mkExn { exn_kind : ExnKind; exn_str : string }.

Definition Result (A : Type) : Type := Exn + A.

Definition hex_digit (n : N) : ascii :=
  if (n <? 10)%N then ascii_of_N (48 + n) else ascii_of_N (87 + n).

Definition printable (c : ascii) : bool :=
  let n := ord c in
  ((32 <=? n) && (n <=? 126) || (161 <=? n) && negb (n =? 173))%N.

Fixpoint repr_body (q : ascii) (s : string) : string :=
  match s with
  | EmptyString => EmptyString
  | String c s' =>
      (if Ascii.eqb c "\" then "\\"
       else if Ascii.eqb c q then String "\" (String c EmptyString)
       else if Ascii.eqb c "009" then "\t"
       else if Ascii.eqb c "010" then "\n"
       else if Ascii.eqb c "013" then "\r"
       else if printable c then String c EmptyString
       else "\x" +:+ String (hex_digit (ord c / 16)) (String (hex_digit (ord c mod 16)) EmptyString))
      +:+ repr_body q s'
  end.

(** [repr(s)]: single quotes unless the text has a single quote and no
    double quote. *)
Definition repr (s : string) : string :=
  let q : ascii :=
    if contains "'" s && negb (contains (String "034" EmptyString) s)
    then "034"%char else "'"%char in
  String q (repr_body q s) +:+ String q EmptyString.

(** Digits with single underscores between them, as [int] reads them. *)
Fixpoint int_digits (acc : Z) (after_digit : bool) (s : string) : option Z :=
  match s with
  | EmptyString => if after_digit then Some acc else None
  | String c s' =>
      if isdecimal c then int_digits (10 * acc + digit_val c) true s'
      else if Ascii.eqb c "_" && after_digit then int_digits acc false s'
      else None
  end.

(** The blanks [int] strips: [str.isspace] without U+001C..U+001F. *)
Definition int_space (c : ascii) : bool :=
  let n := ord c in
  ((9 <=? n) && (n <=? 13) || (n =? 32) || (n =? 133) || (n =? 160))%N.

(** [int(s)] for a [str] in base ten (the interpreter's limit on the number
    of digits is not modelled). *)
Definition int (s : string) : Result Z :=
  let body := lstrip_by int_space (rstrip_by int_space s) in
  let parsed :=
    match body with
    | String c d =>
        if Ascii.eqb c "-" then option_map Z.opp (int_digits 0 false d)
        else if Ascii.eqb c "+" then int_digits 0 false d
        else int_digits 0 false body
    | EmptyString => None
    end in
  match parsed with
  | Some n => inr n
  | None => inl (mkExn ValueError ("invalid literal for int() with base 10: " +:+ repr s))
  end.

(** [float(s)] where [s.isdigit()] holds: the value, as an integer. *)
Definition float_of_digits (s : string) : Result Z :=
  if all_chars isdecimal s then
    match int_digits 0 false s with
    | Some n => inr n
    | None => inl (mkExn ValueError ("could not convert string to float: " +:+ repr s))
    end
  else inl (mkExn ValueError ("could not convert string to float: " +:+ repr s)).

(** Rounding to the nearest integer, ties to the even one. *)
Definition round_half_even (y : Q) : Z :=
  let f := Qfloor y in
  match (y - inject_Z f ?= 1 # 2)%Q with
  | Lt => f
  | Gt => f + 1
  | Eq => if Z.even f then f else f + 1
  end.

(** [round(x, 1)], in tenths. *)
Definition round1 (x : Q) : Z := round_half_even (x * 10)%Q.

(** [a / b] on two [int]s. *)
Definition truediv (a b : Z) : Result Q :=
  if b =? 0 then inl (mkExn ZeroDivisionError "division by zero")
  else inr (inject_Z a / inject_Z b)%Q.

(** The group captured by
    [re.search(r'EstimatedChargeRemaining\s*:\s*(\d+)', s)]. *)
Fixpoint take_decimal (s : string) : string :=
  match s with
  | String c s' => if isdecimal c then String c (take_decimal s') else EmptyString
  | EmptyString => EmptyString
  end.

Definition drop (n : nat) (s : string) : string :=
  String.substring n (String.length s - n) s.

Definition charge_at (s : string) : option string :=
  if String.prefix "EstimatedChargeRemaining" s then
    match lstrip_by isspace (drop 24 s) with
    | String c r =>
        if Ascii.eqb c ":" then
          match take_decimal (lstrip_by isspace r) with
          | EmptyString => None
          | d => Some d
          end
        else None
    | EmptyString => None
    end
  else None.

Fixpoint search_charge (s : string) : option string :=
  match charge_at s with
  | Some d => Some d
  | None => match s with
            | EmptyString => None
            | String _ s' => search_charge s'
            end
  end.

(** [ntpath.join(dir, name)] for a relative [name] without a drive: no
    separator is added after an empty [dir], after a bare drive such as
    [C:], or after a separator. *)
Fixpoint last_char (s : string) : option ascii :=
  match s with
  | EmptyString => None
  | String c EmptyString => Some c
  | String _ s' => last_char s'
  end.

Definition bare_drive (dir : string) : bool :=
  match dir with
  | String _ (String c EmptyString) => Ascii.eqb c ":"
  | _ => false
  end.

Definition path_join (dir name : string) : string :=
  match last_char dir with
  | None => name
  | Some c =>
      if bare_drive dir || Ascii.eqb c "\" || Ascii.eqb c "/"
      then dir +:+ name else dir +:+ "\" +:+ name
  end.

End Py.

(** ** Outcomes *)

(** The four values the [status] field takes. *)
Inductive Status := Pass | Warn | Fail | Error.

Definition status_str (s : Status) : string :=
  match s with
  | Pass => "pass" | Warn => "warn" | Fail => "fail" | Error => "error"
  end.

#[global] Instance Status_eq_dec : EqDecision Status.
Proof. solve_decision. Defined.

(** A number that is an [int] or a float (in tenths). *)
Inductive Num := NInt (n : Z) | NFloat (tenths : Z).

Definition num_tenths (x : Num) : Z :=
  match x with NInt n => 10 * n | NFloat t => t end.

Definition str_num (x : Num) : string :=
  match x with NInt n => Py.str_int n | NFloat t => Py.str_float t end.

(** [x < n] and [x > n] against an [int] literal. *)
Definition num_lt (x : Num) (n : Z) : bool := num_tenths x <? 10 * n.
Definition num_gt (x : Num) (n : Z) : bool := 10 * n <? num_tenths x.

(** What a metrics dictionary holds. *)
Inductive Value :=
| VNum (x : Num)
| VStr (s : string)
| VBool (b : bool)
| VList (l : list string)
| VNone.

(** [class TestResult], the same in both agents.  [metrics] is a dictionary
    written as a literal, kept in the order of the source. *)
Record TestResult := mkTestResult {
  test_id : string;
  category : string;
  status : Status;
  metrics : list (string * Value);
  explanation : string;
  confidence : Q;
  advisories : list string
}.

(** [TestResult(id, category, "error", explanation=.., advisories=..)]:
    [metrics] and [confidence] keep the defaults of [__init__]. *)
Definition error_result (id cat expl : string) (advs : list string) : TestResult :=
  mkTestResult id cat Error [] expl 0 advs.

(** ** The machine the agents run on *)

(** What [subprocess.run] does with a command line. *)
Inductive ProcOutcome :=
| Completed (stdout stderr : string) (returncode : Z)
| TimeoutExpired
| FileNotFoundError (msg : string)
| OtherError (msg : string).

(** One request to the machine. *)
Inductive Call :=
| CallRun (argv : list string)
| CallTempDir
| CallDiskUsage (path : string)
| CallCpuPercent
| CallCpuCount
| CallCpuFreq
| CallVirtualMemory.

#[global] Instance Call_eq_dec : EqDecision Call.
Proof. solve_decision. Defined.

Definition History := list Call.

(** [psutil.virtual_memory()] *)
Record VMem := mkVMem {
  vm_total : Z; vm_available : Z; vm_used : Z; vm_percent : Z (* tenths *)
}.

(** [psutil.disk_usage(path)] *)
Record DiskUsage := mkDiskUsage { du_total : Z; du_used : Z; du_free : Z }.

(** The answers of the machine; each may depend on all earlier calls.
    [psutil] rounds its percentages to one decimal place: they come in
    tenths.  [temp_dir] is the directory that [tempfile.TemporaryDirectory()]
    makes. *)
Record Env := mkEnv {
  subprocess_run : History -> list string -> ProcOutcome;
  temp_dir : History -> Py.Result string;
  disk_usage : History -> string -> Py.Result DiskUsage;
  cpu_percent : History -> Py.Result Z (* tenths *);
  cpu_count : History -> Py.Result (option Z);
  cpu_freq : History -> Py.Result (option Q);
  virtual_memory : History -> Py.Result VMem
}.

(** ** Computations that call the machine and may raise *)

Definition M (A : Type) : Type := History -> Py.Result A * History.

Definition ret {A} (a : A) : M A := fun h => (inr a, h).

Definition raise {A} (e : Py.Exn) : M A := fun h => (inl e, h).

Definition bind {A B} (c : M A) (k : A -> M B) : M B :=
  fun h => match c h with
           | (inr a, h') => k a h'
           | (inl e, h') => (inl e, h')
           end.

(** [try: c  except Exception as e: handler e] *)
Definition try_except {A} (c : M A) (handler : Py.Exn -> M A) : M A :=
  fun h => match c h with
           | (inr a, h') => (inr a, h')
           | (inl e, h') => handler e h'
           end.

Definition lift {A} (r : Py.Result A) : M A := fun h => (r, h).

(** One request: the oracle answers from the history, the call is logged. *)
Definition call {A} (c : Call) (answer : History -> A) : M A :=
  fun h => (inr (answer h), (h ++ [c])%list).

Declare Scope m_scope.
Delimit Scope m_scope with M.
Notation "'let*' x ':=' c 'in' k" := (bind c (fun x => k))
  (at level 10, x pattern, c at level 100, k at level 200) : m_scope.
Notation "'let?' x ':=' r 'in' k" :=
  (match r with inl e => inl e | inr x => k end)
  (at level 10, x pattern, r at level 100, k at level 200) : m_scope.
Open Scope m_scope.

(** [for x in l: results.append(f(x))] *)
Fixpoint for_each {A B} (f : A -> M B) (l : list A) : M (list B) :=
  match l with
  | [] => ret []
  | x :: l' =>
      let* y := f x in
      let* ys := for_each f l' in
      ret (y :: ys)
  end.

Definition TAB : string := String "009" EmptyString.
Definition NL : ascii := "010"%char.

(** ** The Android agent ([agents/android/diagnostics.py]) *)

Module Android.
Section Agent.

Variable E : Env.

Definition run_adb_command (cmd : list string) : M (string * string * Z) :=
  let full_cmd := "adb" :: cmd in
  call (CallRun full_cmd) (fun h =>
    match subprocess_run E h full_cmd with
    | Completed out err code => (Py.strip out, Py.strip err, code)
    | TimeoutExpired => ("", "ADB command timed out", -1)
    | FileNotFoundError _ =>
        ("", "ADB not found. Please install Android SDK platform-tools", -1)
    | OtherError msg => ("", msg, -1)
    end).

(** A line of [adb devices] that announces a connected device. *)
Definition device_line (line : string) : bool :=
  negb (String.eqb (Py.strip line) "") && Py.contains (TAB +:+ "device") line.

Definition check_adb_connection : M bool :=
  let* (stdout, stderr, code) := run_adb_command ["devices"] in
  if negb (code =? 0) then ret false
  else ret (existsb device_line (tail (Py.split_on NL stdout))).

(** *** Battery *)

(** The loop that fills [battery_info] from the lines of the dump. *)
Definition battery_line (info : gmap string string) (line : string) : gmap string string :=
  let line := Py.strip line in
  match Py.split_once ":" line with
  | Some (key, value) => <[Py.strip key := Py.strip value]> info
  | None => info
  end.

Definition parse_battery (stdout : string) : gmap string string :=
  foldl battery_line ∅ (Py.split_on NL stdout).

(** The running verdict of the classification: [health_status],
    [explanation] and [advisories]. *)
Record Verdict := mkVerdict {
  v_status : Status;
  v_explanation : string;
  v_advisories : list string
}.

Definition DEGREE_C : string := String "194" (String "176" "C").

(** The four rules, in the order of the source. *)
Definition rule_health (health : string) (v : Verdict) : Verdict :=
  if negb (String.eqb (Py.lower health) "good") then
    mkVerdict Warn
      (v_explanation v +:+ ". Battery health is not optimal.")
      (v_advisories v ++ ["Consider battery replacement if issues persist"])%list
  else v.

Definition rule_temp_high (temp_celsius : Num) (v : Verdict) : Verdict :=
  if num_gt temp_celsius 40 then
    mkVerdict Warn (v_explanation v)
      (v_advisories v ++
         ["Battery temperature is high (" +:+ str_num temp_celsius
            +:+ DEGREE_C +:+ ")"])%list
  else v.

Definition rule_temp_critical (temp_celsius : Num) (v : Verdict) : Verdict :=
  if num_gt temp_celsius 50 then
    mkVerdict Fail (v_explanation v)
      (v_advisories v ++ ["Critical: Battery overheating detected"])%list
  else v.

Definition rule_low_level (level : Z) (status : string) (v : Verdict) : Verdict :=
  if (level <? 15) && negb (String.eqb (Py.lower status) "charging") then
    mkVerdict (v_status v) (v_explanation v)
      (v_advisories v ++ ["Battery level is low, consider charging"])%list
  else v.

Definition battery_rules (level : Z) (health status : string)
    (temp_celsius : Num) : list (Verdict -> Verdict) :=
  [rule_health health; rule_temp_high temp_celsius;
   rule_temp_critical temp_celsius; rule_low_level level status].

Definition battery_start (level : Z) (health : string) : Verdict :=
  mkVerdict Pass
    ("Battery level: " +:+ Py.str_int level +:+ "%, Health: " +:+ health) [].

(** The verdict after the first [n] rules. *)
Definition battery_verdict_after (n : nat) (level : Z) (health status : string)
    (temp_celsius : Num) : Verdict :=
  foldl (fun v rule => rule v) (battery_start level health)
    (take n (battery_rules level health status temp_celsius)).

(** "Determine health status" down to the returned [TestResult]. *)
Definition classify_battery (level : Z) (health status : string)
    (temp_celsius : Num) (voltage_mv : Z) : TestResult :=
  let v := battery_verdict_after 4 level health status temp_celsius in
  mkTestResult "battery.health" "power" (v_status v)
    [("level_percentage", VNum (NInt level));
     ("health", VStr health);
     ("status", VStr status);
     ("temperature_celsius", VNum temp_celsius);
     ("voltage_mv", VNum (NInt voltage_mv))]
    (v_explanation v) (9 # 10) (v_advisories v).

(** "Extract key metrics" and the two conversions.  The reading is in
    tenths of a degree, so [float(temperature) / 10] is a float whose
    tenths are the reading; without a reading the temperature is the
    [int] zero. *)
Definition battery_metrics (info : gmap string string)
  : Py.Result (Z * string * string * Num * Z) :=
  let? level := match info !! "level" with
                | Some s => Py.int s
                | None => inr 0
                end in
  let health := default "Unknown" (info !! "health") in
  let status := default "Unknown" (info !! "status") in
  let temperature := default "0" (info !! "temperature") in
  let voltage := default "0" (info !! "voltage") in
  let? temp_celsius :=
    if Py.isdigit temperature
    then let? tenths := Py.float_of_digits temperature in inr (NFloat tenths)
    else inr (NInt 0) in
  let? voltage_mv := if Py.isdigit voltage then Py.int voltage else inr 0 in
  inr (level, health, status, temp_celsius, voltage_mv).

Definition test_android_battery : M TestResult :=
  try_except
    (let* connected := check_adb_connection in
     if negb connected then
       ret (error_result "battery.health" "power"
              "No Android device connected via ADB"
              ["Enable USB debugging and connect device"])
     else
       let* (stdout, stderr, code) := run_adb_command ["shell"; "dumpsys"; "battery"] in
       if negb (code =? 0) then
         ret (error_result "battery.health" "power"
                "Could not retrieve battery information"
                ["Check ADB permissions"])
       else
         let* (level, health, status, temp_celsius, voltage_mv) :=
           lift (battery_metrics (parse_battery stdout)) in
         ret (classify_battery level health status temp_celsius voltage_mv))
    (fun e =>
       ret (error_result "battery.health" "power"
              ("Battery test failed: " +:+ Py.exn_str e) [])).

(** *** Storage *)

Record StorageInfo := mkStorageInfo {
  total_gb : Z;           (* tenths *)
  used_gb : Z;            (* tenths *)
  available_gb : Z;       (* tenths *)
  usage_percentage : Num
}.

(** [int(field) if field.isdigit() else 0] *)
Definition kb_field (field : string) : Py.Result Z :=
  if Py.isdigit field then Py.int field else inr 0.

(** The body of the inner [try] for one line of [df]. *)
Definition storage_row (p1 p2 p3 : string) : Py.Result StorageInfo :=
  let? total_kb := kb_field p1 in
  let? used_kb := kb_field p2 in
  let? available_kb := kb_field p3 in
  let? total := Py.truediv total_kb (1024 * 1024) in
  let? used := Py.truediv used_kb (1024 * 1024) in
  let? available := Py.truediv available_kb (1024 * 1024) in
  let? usage :=
    if 0 <? total_kb
    then let? q := Py.truediv used_kb total_kb in
         inr (NFloat (Py.round1 (q * 100)%Q))
    else inr (NInt 0) in
  inr (mkStorageInfo (Py.round1 total) (Py.round1 used) (Py.round1 available) usage).

(** The loop over the lines: the first line that names the data partition,
    has four fields and converts without a [ValueError] or a
    [ZeroDivisionError] is taken. *)
Fixpoint find_storage (lines : list string) : Py.Result (option StorageInfo) :=
  match lines with
  | [] => inr None
  | line :: rest =>
      if Py.contains "/data" line || Py.contains "userdata" line then
        match Py.split line with
        | _ :: p1 :: p2 :: p3 :: _ =>
            match storage_row p1 p2 p3 with
            | inr info => inr (Some info)
            | inl e =>
                match Py.exn_kind e with
                | Py.ValueError | Py.ZeroDivisionError => find_storage rest
                | Py.OtherException => inl e
                end
            end
        | _ => find_storage rest
        end
      else find_storage rest
  end.

(** ["pass" if usage_pct < 80 else "warn" if usage_pct < 90 else "fail"] *)
Definition storage_status (usage_pct : Num) : Status :=
  if num_lt usage_pct 80 then Pass
  else if num_lt usage_pct 90 then Warn else Fail.

Definition storage_explanation (st : Status) (info : StorageInfo) : string :=
  let usage_pct := str_num (usage_percentage info) in
  match st with
  | Pass => "Storage usage is healthy at " +:+ usage_pct +:+ "%. "
            +:+ Py.str_float (available_gb info) +:+ " GB available."
  | Warn => "Storage is getting full at " +:+ usage_pct
            +:+ "% usage. Consider cleanup."
  | _ => "Storage is critically full at " +:+ usage_pct
         +:+ "% usage. Immediate cleanup needed."
  end.

Definition storage_advisories (usage_pct : Num) : list string :=
  ((if num_gt usage_pct 85 then ["Clear cache, photos, or unused apps"] else [])
   ++ (if num_gt usage_pct 90
       then ["Critical: Free up space to avoid app crashes"] else []))%list.

Definition classify_storage (info : StorageInfo) : TestResult :=
  let usage_pct := usage_percentage info in
  let st := storage_status usage_pct in
  mkTestResult "storage.health" "storage" st
    [("total_gb", VNum (NFloat (total_gb info)));
     ("used_gb", VNum (NFloat (used_gb info)));
     ("available_gb", VNum (NFloat (available_gb info)));
     ("usage_percentage", VNum usage_pct)]
    (storage_explanation st info) (85 # 100) (storage_advisories usage_pct).

Definition test_android_storage : M TestResult :=
  try_except
    (let* connected := check_adb_connection in
     if negb connected then
       ret (error_result "storage.health" "storage"
              "No Android device connected via ADB" [])
     else
       let* (stdout, stderr, code) := run_adb_command ["shell"; "df"; "/data"] in
       let* (stdout, stderr, code) :=
         if negb (code =? 0)
         then run_adb_command ["shell"; "dumpsys"; "diskstats"]
         else ret (stdout, stderr, code) in
       if negb (code =? 0) then
         ret (error_result "storage.health" "storage"
                "Could not retrieve storage information" [])
       else
         let* storage_info := lift (find_storage (Py.split_on NL stdout)) in
         match storage_info with
         | None =>
             ret (error_result "storage.health" "storage"
                    "Could not parse storage information" [])
         | Some info => ret (classify_storage info)
         end)
    (fun e =>
       ret (error_result "storage.health" "storage"
              ("Storage test failed: " +:+ Py.exn_str e) [])).

(** *** Sensors *)

Definition common_sensors : list string :=
  ["accelerometer"; "gyroscope"; "magnetometer";
   "proximity"; "light"; "pressure"; "temperature"].

Definition classify_sensors (stdout : string) : TestResult :=
  let stdout_lower := Py.lower stdout in
  let sensors_found :=
    List.filter (fun sensor => Py.contains sensor stdout_lower) common_sensors in
  let sensor_count := Z.of_nat (length sensors_found) in
  let verdict :=
    if 5 <=? sensor_count then
      (Pass, "Found " +:+ Py.str_int sensor_count
             +:+ " sensors working properly: "
             +:+ Py.join ", " (take 5 sensors_found))
    else if 3 <=? sensor_count then
      (Warn, "Found " +:+ Py.str_int sensor_count
             +:+ " sensors. Some sensors may not be available.")
    else
      (Fail, "Only " +:+ Py.str_int sensor_count
             +:+ " sensors detected. Device may have sensor issues.") in
  mkTestResult "sensors.test" "sensors" (fst verdict)
    [("sensors_found", VList sensors_found);
     ("sensor_count", VNum (NInt sensor_count))]
    (snd verdict) (75 # 100)
    (if sensor_count <? 3
     then ["Check if device requires sensor calibration"] else []).

Definition test_android_sensors : M TestResult :=
  try_except
    (let* connected := check_adb_connection in
     if negb connected then
       ret (error_result "sensors.test" "sensors"
              "No Android device connected via ADB" [])
     else
       let* (stdout, stderr, code) :=
         run_adb_command ["shell"; "dumpsys"; "sensorservice"] in
       if negb (code =? 0) then
         ret (error_result "sensors.test" "sensors"
                "Could not retrieve sensor information" [])
       else ret (classify_sensors stdout))
    (fun e =>
       ret (error_result "sensors.test" "sensors"
              ("Sensors test failed: " +:+ Py.exn_str e) [])).

(** *** Connectivity *)

Definition classify_connectivity (wifi_enabled wifi_connected mobile_data : bool)
  : TestResult :=
  let verdict :=
    if wifi_connected || mobile_data then
      (Pass, "Network connectivity is working."
             +:+ (if wifi_connected then " Wi-Fi connected." else "")
             +:+ (if mobile_data then " Mobile data available." else ""))
    else if wifi_enabled then
      (Warn, "Wi-Fi is enabled but not connected to a network.")
    else (Fail, "No network connectivity detected.") in
  mkTestResult "network.connectivity" "network" (fst verdict)
    [("wifi_enabled", VBool wifi_enabled);
     ("wifi_connected", VBool wifi_connected);
     ("mobile_data", VBool mobile_data)]
    (snd verdict) (80 # 100)
    (if negb wifi_connected && negb mobile_data
     then ["Check Wi-Fi password or mobile data settings"] else []).

Definition test_android_connectivity : M TestResult :=
  try_except
    (let* connected := check_adb_connection in
     if negb connected then
       ret (error_result "network.connectivity" "network"
              "No Android device connected via ADB" [])
     else
       let* (stdout, stderr, code) := run_adb_command ["shell"; "dumpsys"; "wifi"] in
       if negb (code =? 0) then
         ret (error_result "network.connectivity" "network"
                "Could not retrieve network information" [])
       else
         let wifi_enabled :=
           Py.contains "Wi-Fi is enabled" stdout
           || Py.contains "mWifiEnabled: true" stdout in
         let wifi_connected :=
           Py.contains "CONNECTED/CONNECTED" stdout
           || Py.contains "state: CONNECTED" stdout in
         let* (mobile_stdout, mobile_stderr, mobile_code) :=
           run_adb_command ["shell"; "dumpsys"; "telephony.registry"] in
         let mobile_data :=
           if mobile_code =? 0
           then Py.contains "DATA_CONNECTED" mobile_stdout else false in
         ret (classify_connectivity wifi_enabled wifi_connected mobile_data))
    (fun e =>
       ret (error_result "network.connectivity" "network"
              ("Connectivity test failed: " +:+ Py.exn_str e) [])).

(** *** The runner *)

Definition test_functions : gmap string (M TestResult) :=
  list_to_map
    [("battery.health", test_android_battery);
     ("storage.health", test_android_storage);
     ("sensors.test", test_android_sensors);
     ("network.connectivity", test_android_connectivity)].

Definition transport_advisories : list string :=
  ["Install ADB (Android SDK platform-tools)";
   "Enable Developer Options on your Android device";
   "Enable USB Debugging in Developer Options";
   "Connect device with USB cable and accept debugging prompt"].

(** The outcome given to every requested id when no device answers. *)
Definition unreachable_result (id : string) : TestResult :=
  error_result id "unknown"
    "No Android device connected. Enable USB debugging and connect device."
    transport_advisories.

(** The body of the second loop for one requested id. *)
Definition run_one (id : string) : M TestResult :=
  match test_functions !! id with
  | Some test =>
      try_except test
        (fun e =>
           ret (error_result id "unknown"
                  ("Test execution failed: " +:+ Py.exn_str e) []))
  | None =>
      ret (error_result id "unknown" ("Test not implemented: " +:+ id) [])
  end.

Definition run_android_diagnostics (tests : list string) : M (list TestResult) :=
  let* connected := check_adb_connection in
  if negb connected then for_each (fun id => ret (unreachable_result id)) tests
  else for_each run_one tests.

End Agent.
End Android.

(** ** The Windows agent ([agents/windows/diagnostics.py]) *)

Module Windows.
Section Agent.

Variable E : Env.

Definition run_command (cmd : list string) : M (string * string * Z) :=
  call (CallRun cmd) (fun h =>
    match subprocess_run E h cmd with
    | Completed out err code => (out, err, code)
    | TimeoutExpired => ("", "Command timed out", -1)
    | FileNotFoundError msg => ("", msg, -1)
    | OtherError msg => ("", msg, -1)
    end).

(** *** Battery *)

Definition design_capacity : Z := 50000.
Definition current_capacity : Z := 42000.

(** ["pass" if health_percentage > 80 else "warn" if health_percentage > 60
    else "fail"] *)
Definition battery_status (health_percentage : Num) : Status :=
  if num_gt health_percentage 80 then Pass
  else if num_gt health_percentage 60 then Warn else Fail.

Definition battery_explanation (st : Status) (health_percentage : Num) : string :=
  let hp := str_num health_percentage in
  match st with
  | Pass => "Battery health is good at " +:+ hp
            +:+ "%. Expected runtime should be normal."
  | Warn => "Battery health is declining at " +:+ hp
            +:+ "%. You may notice shorter runtime."
  | _ => "Battery health is poor at " +:+ hp
         +:+ "%. Consider replacing the battery."
  end.

Definition battery_advisories (health_percentage : Num) : list string :=
  ((if num_lt health_percentage 80
    then ["Consider replacing battery for optimal performance"] else [])
   ++ (if num_lt health_percentage 60
       then ["Battery replacement recommended soon"] else []))%list.

(** The branch taken when PowerShell answered with a charge line. *)
Definition battery_report (ps_output : string) : Py.Result TestResult :=
  let? current_charge :=
    match Py.search_charge ps_output with
    | Some digits => let? n := Py.int digits in inr (VNum (NInt n))
    | None => inr VNone
    end in
  let? q := Py.truediv current_capacity design_capacity in
  let health_percentage := NFloat (Py.round1 (q * 100)%Q) in
  let st := battery_status health_percentage in
  inr (mkTestResult "battery.health" "power" st
         [("design_capacity_mwh", VNum (NInt design_capacity));
          ("current_capacity_mwh", VNum (NInt current_capacity));
          ("health_percentage", VNum health_percentage);
          ("current_charge_percentage", current_charge)]
         (battery_explanation st health_percentage) (85 # 100)
         (battery_advisories health_percentage)).

Definition ps_cmd : list string :=
  ["powershell"; "-Command";
   "Get-WmiObject -Class Win32_Battery | Select-Object EstimatedChargeRemaining,BatteryStatus"].

Definition powercfg_cmd (temp_dir : string) : list string :=
  ["powercfg"; "/batteryreport"; "/output";
   Py.path_join temp_dir "battery-report.html"].

(** The directory made by [tempfile.TemporaryDirectory()] is asked of the
    machine; its removal on leaving the block is taken to succeed. *)
Definition test_battery_health : M TestResult :=
  try_except
    (let* made := call CallTempDir (temp_dir E) in
     let* temp_dir := lift made in
     let* (stdout, stderr, code) := run_command (powercfg_cmd temp_dir) in
     if negb (code =? 0) then
       ret (error_result "battery.health" "power"
              "Could not generate battery report"
              ["Battery diagnostic tools may not be available"])
     else
       let* (ps_output, ps_error, ps_code) := run_command ps_cmd in
       if (ps_code =? 0) && Py.contains "EstimatedChargeRemaining" ps_output
       then lift (battery_report ps_output)
       else
         ret (error_result "battery.health" "power"
                "Could not read battery information"
                ["No battery detected or battery information unavailable"]))
    (fun e =>
       ret (error_result "battery.health" "power"
              ("Battery test failed: " +:+ Py.exn_str e) [])).

(** *** Storage *)

Definition GIB : Z := 1024 ^ 3.

Definition storage_status (usage_percentage : Num) : Status :=
  if num_lt usage_percentage 80 then Pass
  else if num_lt usage_percentage 90 then Warn else Fail.

Definition storage_report (du : DiskUsage) : Py.Result TestResult :=
  let? total := Py.truediv (du_total du) GIB in
  let? used := Py.truediv (du_used du) GIB in
  let? free := Py.truediv (du_free du) GIB in
  let? q := Py.truediv (du_used du) (du_total du) in
  let usage_percentage := NFloat (Py.round1 (q * 100)%Q) in
  let usage := str_num usage_percentage in
  let st := storage_status usage_percentage in
  inr (mkTestResult "storage.health" "storage" st
         [("total_gb", VNum (NFloat (Py.round1 total)));
          ("used_gb", VNum (NFloat (Py.round1 used)));
          ("free_gb", VNum (NFloat (Py.round1 free)));
          ("usage_percentage", VNum usage_percentage)]
         (match st with
          | Pass => "Storage health looks good. " +:+ usage +:+ "% used with "
                    +:+ Py.str_float (Py.round1 free) +:+ " GB free."
          | Warn => "Storage is getting full at " +:+ usage
                    +:+ "% usage. Consider cleanup."
          | _ => "Storage is critically full at " +:+ usage
                 +:+ "% usage. Immediate cleanup needed."
          end)
         (95 # 100)
         ((if num_gt usage_percentage 85
           then ["Clean up temporary files and unused programs"] else [])
          ++ (if num_gt usage_percentage 90
              then ["Critical: Free up space immediately to avoid system issues"]
              else []))%list).

Definition wmic_cmd : list string :=
  ["wmic"; "diskdrive"; "get"; "size,status,model"; "/format:csv"].

Definition test_storage_health : M TestResult :=
  try_except
    (let* (stdout, stderr, code) := run_command wmic_cmd in
     if (code =? 0) && negb (String.eqb stdout "") then
       let* answer := call (CallDiskUsage "C:\") (fun h => disk_usage E h "C:\") in
       let* du := lift answer in
       lift (storage_report du)
     else
       ret (error_result "storage.health" "storage"
              "Could not retrieve storage information" []))
    (fun e =>
       ret (error_result "storage.health" "storage"
              ("Storage test failed: " +:+ Py.exn_str e) [])).

(** *** CPU *)

Definition cpu_report (cpu_pct : Z) (cores : option Z) (freq : option Q)
  : TestResult :=
  let cpu_percent := NFloat cpu_pct in
  let usage := str_num cpu_percent in
  let st := if num_lt cpu_percent 80 then Pass
            else if num_lt cpu_percent 95 then Warn else Fail in
  mkTestResult "cpu.temperature" "performance" st
    ([("cpu_usage_percentage", VNum cpu_percent);
      ("cpu_cores", match cores with Some n => VNum (NInt n) | None => VNone end)]
     ++ match freq with
        | Some current => [("cpu_frequency_mhz", VNum (NFloat (Py.round1 current)))]
        | None => []
        end)%list
    (match st with
     | Pass => "CPU performance is normal. Current usage: " +:+ usage +:+ "%"
     | Warn => "CPU usage is high at " +:+ usage
               +:+ "%. Check for resource-heavy programs."
     | _ => "CPU usage is critical at " +:+ usage
            +:+ "%. System may be overloaded."
     end)
    (80 # 100)
    ((if num_gt cpu_percent 90
      then ["Close unnecessary programs to reduce CPU load"] else [])
     ++ (if num_gt cpu_percent 95
         then ["Critical: Check for malware or system issues"] else []))%list.

Definition test_cpu_temperature : M TestResult :=
  try_except
    (let* a1 := call CallCpuPercent (cpu_percent E) in
     let* cpu_pct := lift a1 in
     let* a2 := call CallCpuCount (cpu_count E) in
     let* cores := lift a2 in
     let* a3 := call CallCpuFreq (cpu_freq E) in
     let* freq := lift a3 in
     ret (cpu_report cpu_pct cores freq))
    (fun e =>
       ret (error_result "cpu.temperature" "performance"
              ("CPU test failed: " +:+ Py.exn_str e) [])).

(** *** Memory *)

Definition memory_report (memory : VMem) : Py.Result TestResult :=
  let? total := Py.truediv (vm_total memory) GIB in
  let? available := Py.truediv (vm_available memory) GIB in
  let? used := Py.truediv (vm_used memory) GIB in
  let usage_percentage := NFloat (vm_percent memory) in
  let usage := str_num usage_percentage in
  let st := if num_lt usage_percentage 80 then Pass
            else if num_lt usage_percentage 90 then Warn else Fail in
  inr (mkTestResult "memory.test" "performance" st
         [("total_gb", VNum (NFloat (Py.round1 total)));
          ("used_gb", VNum (NFloat (Py.round1 used)));
          ("available_gb", VNum (NFloat (Py.round1 available)));
          ("usage_percentage", VNum usage_percentage)]
         (match st with
          | Pass => "Memory usage is normal at " +:+ usage +:+ "%. "
                    +:+ Py.str_float (Py.round1 available) +:+ " GB available."
          | Warn => "Memory usage is high at " +:+ usage
                    +:+ "%. Consider closing some programs."
          | _ => "Memory usage is critical at " +:+ usage
                 +:+ "%. System may be slow."
          end)
         (95 # 100)
         ((if num_gt usage_percentage 85
           then ["Close unnecessary programs to free up memory"] else [])
          ++ (if num_gt usage_percentage 90
              then ["Critical: System performance may be severely impacted"]
              else []))%list).

Definition test_memory : M TestResult :=
  try_except
    (let* answer := call CallVirtualMemory (virtual_memory E) in
     let* memory := lift answer in
     lift (memory_report memory))
    (fun e =>
       ret (error_result "memory.test" "performance"
              ("Memory test failed: " +:+ Py.exn_str e) [])).

(** *** The runner *)

Definition test_functions : gmap string (M TestResult) :=
  list_to_map
    [("battery.health", test_battery_health);
     ("storage.health", test_storage_health);
     ("cpu.temperature", test_cpu_temperature);
     ("memory.test", test_memory)].

Definition run_one (id : string) : M TestResult :=
  match test_functions !! id with
  | Some test =>
      try_except test
        (fun e =>
           ret (error_result id "unknown"
                  ("Test execution failed: " +:+ Py.exn_str e) []))
  | None =>
      ret (error_result id "unknown" ("Test not implemented: " +:+ id) [])
  end.

Definition run_windows_diagnostics (tests : list string) : M (list TestResult) :=
  for_each run_one tests.

End Agent.
End Windows.

(** ** The summary ([run_diagnostics] in [backend/main.py]) *)

Module Backend.

Record Summary := mkSummary {
  total_tests : Z;
  passed : Z;
  warnings : Z;
  failed : Z;
  errors : Z;
  health_score : Num;
  overall_status : string
}.

(** [len([r for r in results if r.status == s])] *)
Definition count_status (s : string) (results : list TestResult) : Z :=
  Z.of_nat (length (List.filter
                      (fun r => String.eqb (status_str (status r)) s) results)).

Definition summarize (results : list TestResult) : Py.Result Summary :=
  let passed := count_status "pass" results in
  let warnings := count_status "warn" results in
  let failed := count_status "fail" results in
  let errors := count_status "error" results in
  let? score :=
    match results with
    | [] => inr (NInt 0)
    | _ => let? q := Py.truediv passed (Z.of_nat (length results)) in
           inr (NFloat (Py.round1 (q * 100)%Q))
    end in
  inr (mkSummary (Z.of_nat (length results)) passed warnings failed errors score
         (if (failed =? 0) && (errors =? 0) then "healthy" else "issues_detected")).

End Backend.

(** ** The service ([backend/main.py]) *)

Module Main.

(** [class DeviceInfo]; [connected_at] is a reading of the clock. *)
Record DeviceInfo := mkDeviceInfo {
  id : string;
  device_class : string;
  make : option string;
  model : option string;
  os : string;
  os_version : string;
  capabilities : list string;
  connected_at : Z
}.

(** What [platform] and the clock tell [detect_device]: [platform.system()],
    [hash(platform.node())], [platform.version()],
    [int(datetime.now().timestamp())] and the later [datetime.now()]. *)
Record Host := mkHost {
  system : string;
  node_hash : Z;
  version : string;
  timestamp : Z;
  now : Z
}.

(** The outcome of an endpoint: its value, or the [HTTPException] it raises. *)
Inductive Http (A : Type) :=
| Ok (a : A)
| HTTPException (status_code : Z) (detail : string).

Arguments Ok {A} a.
Arguments HTTPException {A} status_code detail.

(** The chain of [if]/[elif] on [os_type]: [device_class] and [capabilities]. *)
Definition device_profile (os_type : string) : string * list string :=
  if String.eqb os_type "Windows" then
    ("laptop", ["battery"; "storage"; "cpu"; "memory"; "network"; "display"])
  else if String.eqb os_type "Linux" then
    ("laptop", ["storage"; "cpu"; "memory"; "network"])
  else if String.eqb os_type "Darwin" then
    ("laptop", ["battery"; "storage"; "cpu"; "memory"; "network"; "display"])
  else ("unknown", []).

(** [detect_device]: the device it returns and the registry it leaves.  The
    calls to [platform] are taken not to raise. *)
Definition detect_device (H : Host) (device_registry : gmap string DeviceInfo)
  : DeviceInfo * gmap string DeviceInfo :=
  let os_type := system H in
  let device_id :=
    "device_" +:+ Py.str_int (node_hash H) +:+ "_" +:+ Py.str_int (timestamp H) in
  let profile := device_profile os_type in
  let device_info :=
    mkDeviceInfo device_id (fst profile) None None os_type (version H)
      (snd profile) (now H) in
  (device_info, <[device_id := device_info]> device_registry).

(** An entry of [test_definitions]. *)
Record TestDefinition := mkTestDefinition {
  def_id : string;
  def_name : string;
  def_duration : string
}.

Definition test_definitions : gmap string (list TestDefinition) :=
  list_to_map
    [("battery",
      [mkTestDefinition "battery.health" "Battery Health Check" "30s";
       mkTestDefinition "battery.charging" "Charging System Test" "60s"]);
     ("storage",
      [mkTestDefinition "storage.health" "Storage Health (SMART)" "45s";
       mkTestDefinition "storage.speed" "Storage Performance Test" "120s"]);
     ("cpu",
      [mkTestDefinition "cpu.stress" "CPU Stress Test" "60s";
       mkTestDefinition "cpu.temperature" "CPU Temperature Check" "30s"]);
     ("memory",
      [mkTestDefinition "memory.test" "RAM Health Check" "90s"]);
     ("network",
      [mkTestDefinition "network.connectivity" "Network Connectivity" "30s";
       mkTestDefinition "network.speed" "Network Speed Test" "60s"]);
     ("display",
      [mkTestDefinition "display.pixels" "Pixel Test" "manual";
       mkTestDefinition "display.touch" "Touch Response Test" "manual"])].

(** The loop that extends [available_tests] capability by capability. *)
Fixpoint available_tests (capabilities : list string) : list TestDefinition :=
  match capabilities with
  | [] => []
  | capability :: rest =>
      match test_definitions !! capability with
      | Some defs => defs ++ available_tests rest
      | None => available_tests rest
      end
  end.

(** The dictionary that [get_device_capabilities] returns. *)
Record Capabilities := mkCapabilities {
  cap_device_id : string;
  cap_capabilities : list string;
  cap_available_tests : list TestDefinition
}.

Definition get_device_capabilities (device_registry : gmap string DeviceInfo)
    (device_id : string) : Http Capabilities :=
  match device_registry !! device_id with
  | None => HTTPException 404 "Device not found"
  | Some device =>
      Ok (mkCapabilities device_id (capabilities device)
            (available_tests (capabilities device)))
  end.

(** The arguments that [run_diagnostics] hands to [DiagnosticResponse]. *)
Record DiagnosticResponse := mkDiagnosticResponse {
  device : DeviceInfo;
  results : list TestResult;
  summary : Backend.Summary;
  report_id : string
}.

Section Run.

Variable E : Env.

(** What the branch for [Darwin] comes to: the agent [agents.macos] is not
    part of these sources, so its results, or the [HTTPException] that the
    two handlers make of its failure, are left open. *)
Variable darwin : list string -> History -> Http (list TestResult) * History.

(** The [try] block up to [results]: the agent for the device's [os]; an
    exception of an agent becomes the status 500. *)
Definition agent_results (os_type : string) (tests : list string)
  : History -> Http (list TestResult) * History :=
  fun h =>
    let run (agent : M (list TestResult)) :=
      match agent h with
      | (inr rs, h') => (Ok rs, h')
      | (inl e, h') =>
          (HTTPException 500 ("Diagnostic execution failed: " +:+ Py.exn_str e), h')
      end in
    if String.eqb os_type "Windows" then run (Windows.run_windows_diagnostics E tests)
    else if String.eqb os_type "Linux" then run (Android.run_android_diagnostics E tests)
    else if String.eqb os_type "Darwin" then darwin tests h
    else (Ok [], h).

(** [run_diagnostics], with [clock] for [int(datetime.now().timestamp())]. *)
Definition run_diagnostics (clock : Z) (device_registry : gmap string DeviceInfo)
    (device_id : string) (tests : list string)
  : History -> Http DiagnosticResponse * History :=
  fun h =>
    match device_registry !! device_id with
    | None => (HTTPException 404 "Device not found", h)
    | Some device =>
        match agent_results (os device) tests h with
        | (HTTPException code detail, h') => (HTTPException code detail, h')
        | (Ok rs, h') =>
            match Backend.summarize rs with
            | inl e =>
                (HTTPException 500
                   ("Diagnostic execution failed: " +:+ Py.exn_str e), h')
            | inr s =>
                (Ok (mkDiagnosticResponse device rs s
                       ("report_" +:+ id device +:+ "_" +:+ Py.str_int clock)), h')
            end
        end
    end.

End Run.
End Main.

(** ** Vocabulary of the properties *)

(** What a computation started in history [h] establishes: [P] of its value
    and final history when it returns, [Q] of its exception when it raises. *)
Definition wp {A} (c : M A) (P : A -> History -> Prop)
    (Q : Py.Exn -> History -> Prop) (h : History) : Prop :=
  match c h with
  | (inr a, h') => P a h'
  | (inl e, h') => Q e h'
  end.

(** [c] started in [h] returns [a] and leaves the history [h']. *)
Definition returns {A} (c : M A) (h : History) (a : A) (h' : History) : Prop :=
  c h = (inr a, h').

(** The invariant of the data model on [confidence] and [explanation]. *)
Definition well_formed (r : TestResult) : Prop :=
  ((confidence r == 0)%Q <-> status r = Error)
  /\ (status r = Error -> explanation r <> "").

(** The order along which a verdict may only move. *)
Definition severity (s : Status) : nat :=
  match s with Pass => 0 | Warn => 1 | Fail => 2 | Error => 3 end.

(** The probe behind [check_adb_connection], and how often a history shows it. *)
Definition adb_devices : Call := CallRun ["adb"; "devices"].

Definition connectivity_checks (h : History) : nat :=
  length (List.filter (fun c => bool_decide (c = adb_devices)) h).

(** The requested ids that the Android catalog knows. *)
Definition catalogued (E : Env) (tests : list string) : list string :=
  List.filter (fun id => bool_decide (is_Some (Android.test_functions E !! id))) tests.

(** The test functions of the two agents. *)
Definition android_tests (E : Env) : list (M TestResult) :=
  [Android.test_android_battery E; Android.test_android_storage E;
   Android.test_android_sensors E; Android.test_android_connectivity E].

Definition windows_tests (E : Env) : list (M TestResult) :=
  [Windows.test_battery_health E; Windows.test_storage_health E;
   Windows.test_cpu_temperature E; Windows.test_memory E].

(** [r] comes out of a test function or of a runner, on some machine [E],
    from some history. *)
Inductive produced (E : Env) (r : TestResult) : Prop :=
| produced_by_test (f : M TestResult) (h h' : History) :
    In f (android_tests E ++ windows_tests E)%list ->
    returns f h r h' -> produced E r
| produced_by_android_run (tests : list string) (rs : list TestResult) (h h' : History) :
    returns (Android.run_android_diagnostics E tests) h rs h' ->
    In r rs -> produced E r
| produced_by_windows_run (tests : list string) (rs : list TestResult) (h h' : History) :
    returns (Windows.run_windows_diagnostics E tests) h rs h' ->
    In r rs -> produced E r.

(** The value stored under a key of a metrics dictionary. *)
Fixpoint metric (key : string) (m : list (string * Value)) : option Value :=
  match m with
  | [] => None
  | (k, v) :: m' => if String.eqb k key then Some v else metric key m'
  end.

(** A line of [df] that the storage loop passes over. *)
Definition skipped (line : string) : Prop :=
  Android.find_storage [line] = inr None.


(** What an Android test function leaves behind: an outcome under its own
    id, well formed, and one more connectivity check in the history. *)
Definition outcome_of (id : string) (h : History) (r : TestResult) (h' : History) : Prop :=
  test_id r = id /\ well_formed r /\ connectivity_checks h' = S (connectivity_checks h).

(** What a Windows test function returns. *)
Definition result_of (id : string) (r : TestResult) : Prop :=
  test_id r = id /\ well_formed r.

(** "The connectivity check is evaluated exactly once per run." *)
Definition checked_once (E : Env) (tests : list string) (h : History) : Prop :=
  connectivity_checks (snd (Android.run_android_diagnostics E tests h))
  = S (connectivity_checks h).

(** The synthetic outcome for an id that the catalog misses. *)
Definition not_implemented (id : string) : TestResult :=
  mkTestResult id "unknown" Error [] ("Test not implemented: " +:+ id) 0 [].

(** The storage row of the threshold table, read with both ends of the
    warn band included. *)
Definition storage_table (classify : Num -> Status) : Prop :=
  forall u,
    (num_tenths u < 800 -> classify u = Pass)
    /\ (800 <= num_tenths u <= 900 -> classify u = Warn)
    /\ (900 < num_tenths u -> classify u = Fail).

(** The bands the two storage classifiers implement. *)
Definition storage_bands (classify : Num -> Status) : Prop :=
  forall u,
    (num_tenths u < 800 -> classify u = Pass)
    /\ (800 <= num_tenths u < 900 -> classify u = Warn)
    /\ (900 <= num_tenths u -> classify u = Fail).

(** The advisory of the high-temperature rule at 45.0 degrees. *)
Definition HIGH_TEMPERATURE_45 : string :=
  "Battery temperature is high (45.0" +:+ Android.DEGREE_C +:+ ")".

(** What dispatching one id adds to the count of connectivity checks. *)
Definition dispatch_cost (E : Env) (id : string) : nat :=
  if bool_decide (is_Some (Android.test_functions E !! id)) then 1%nat else 0%nat.

(** ** Sample machines *)

Definition LF : string := String NL EmptyString.

Definition devices_listing : string :=
  "List of devices attached" +:+ LF +:+ "emulator-5554" +:+ TAB +:+ "device".

Definition battery_dump : string :=
  "Current Battery Service state:" +:+ LF +:+ "  level: 85" +:+ LF
  +:+ "  health: Good" +:+ LF +:+ "  status: 2" +:+ LF
  +:+ "  temperature: 450" +:+ LF +:+ "  voltage: 4100".

Definition df_header : string :=
  "Filesystem 1K-blocks Used Available Use% Mounted on".

(** [df /data] with 900 of 1000 blocks used. *)
Definition df_ninety : string :=
  df_header +:+ LF +:+ "/dev/block/dm-0 1000 900 100 90% /data".


Definition psutil_idle : History -> Py.Result Z := fun _ => inr 125.

(** A connected phone whose [df /data] prints [df_output]. *)
Definition phone (df_output : string) : Env :=
  mkEnv
    (fun _ cmd =>
       match cmd with
       | ["adb"; "devices"] => Completed devices_listing "" 0
       | ["adb"; "shell"; "dumpsys"; "battery"] => Completed battery_dump "" 0
       | ["adb"; "shell"; "df"; "/data"] => Completed df_output "" 0
       | _ => Completed "" "not available" 1
       end)
    (fun _ => inr "/tmp/tmpdiag")
    (fun _ _ => inr (mkDiskUsage 1000 500 500))
    psutil_idle
    (fun _ => inr (Some 4))
    (fun _ => inr None)
    (fun _ => inr (mkVMem 1000 500 500 500)).

(** A host on which [adb devices] lists nothing. *)
Definition no_phone : Env :=
  mkEnv
    (fun _ cmd =>
       match cmd with
       | ["adb"; "devices"] => Completed ("List of devices attached" +:+ LF) "" 0
       | _ => Completed "" "not available" 1
       end)
    (fun _ => inr "/tmp/tmpdiag")
    (fun _ _ => inr (mkDiskUsage 1000 500 500))
    psutil_idle
    (fun _ => inr (Some 4))
    (fun _ => inr None)
    (fun _ => inr (mkVMem 1000 500 500 500)).

(** A Windows laptop whose PowerShell reports a charge of 37. *)
Definition laptop : Env :=
  mkEnv
    (fun _ cmd =>
       match cmd with
       | "powercfg" :: _ => Completed "Battery life report saved." "" 0
       | "powershell" :: _ =>
           Completed ("EstimatedChargeRemaining : 37" +:+ LF +:+ "BatteryStatus : 1") "" 0
       | "wmic" :: _ => Completed "Node,Model,Size,Status" "" 0
       | _ => Completed "" "not available" 1
       end)
    (fun _ => inr "C:\Temp\tmpdiag")
    (fun _ _ => inr (mkDiskUsage 1000 500 500))
    psutil_idle
    (fun _ => inr (Some 4))
    (fun _ => inr None)
    (fun _ => inr (mkVMem 1000 500 500 500)).

(** ** Vocabulary of the further properties *)

(** The commands of the Android tests. *)
Definition adb_battery : Call := CallRun ["adb"; "shell"; "dumpsys"; "battery"].
Definition adb_df : Call := CallRun ["adb"; "shell"; "df"; "/data"].
Definition adb_diskstats : Call := CallRun ["adb"; "shell"; "dumpsys"; "diskstats"].
Definition adb_sensors : Call := CallRun ["adb"; "shell"; "dumpsys"; "sensorservice"].
Definition adb_wifi : Call := CallRun ["adb"; "shell"; "dumpsys"; "wifi"].
Definition adb_telephony : Call :=
  CallRun ["adb"; "shell"; "dumpsys"; "telephony.registry"].

(** A call that runs [adb]. *)
Definition is_adb (c : Call) : bool :=
  match c with
  | CallRun (program :: _) => String.eqb program "adb"
  | _ => false
  end.

(** A call that does not run [adb]. *)
Definition not_adb (c : Call) : bool := negb (is_adb c).

(** The commands and probes of the Windows tests. *)
Definition run_powercfg (dir : string) : Call := CallRun (Windows.powercfg_cmd dir).
Definition run_powershell : Call := CallRun Windows.ps_cmd.
Definition run_wmic : Call := CallRun Windows.wmic_cmd.
Definition probe_disk : Call := CallDiskUsage "C:\".

(** [h'] is [h] followed by calls that all satisfy [p]. *)
Definition extends_with (p : Call -> bool) (h h' : History) : Prop :=
  exists added, h' = h ++ added /\ forallb p added = true.

(** What the storage test makes of the output it parses: the end of
    [test_android_storage], from "Parse df output" on. *)
Definition storage_verdict (stdout : string) : TestResult :=
  match Android.find_storage (Py.split_on NL stdout) with
  | inr (Some info) => Android.classify_storage info
  | inr None =>
      error_result "storage.health" "storage"
        "Could not parse storage information" []
  | inl e =>
      error_result "storage.health" "storage"
        ("Storage test failed: " +:+ Py.exn_str e) []
  end.

(** The number of sensors the test counts in an output. *)
Definition sensor_count (stdout : string) : Z :=
  Z.of_nat
    (length (List.filter (fun sensor => Py.contains sensor (Py.lower stdout))
               Android.common_sensors)).

(** The ids that the service advertises for the capabilities it gives a
    device whose [platform.system()] is [os_type]. *)
Definition advertised (os_type : string) : list string :=
  map Main.def_id (Main.available_tests (snd (Main.device_profile os_type))).

(** The ids among [ids] that the Windows catalog knows. *)
Definition windows_catalogued (E : Env) (ids : list string) : list string :=
  List.filter (fun id => bool_decide (is_Some (Windows.test_functions E !! id))) ids.

(** A character other than the underscore. *)
Definition not_underscore (c : ascii) : bool := negb (Ascii.eqb c "_").

(** ** More sample machines *)

(** A host whose commands answer by [answer], whatever came before. *)
Definition host (answer : list string -> ProcOutcome) : Env :=
  mkEnv (fun _ cmd => answer cmd)
    (temp_dir no_phone) (disk_usage no_phone) (cpu_percent no_phone)
    (cpu_count no_phone) (cpu_freq no_phone) (virtual_memory no_phone).

(** [adb devices] prints only a header, one that ends like a device line. *)
Definition header_only_host : Env :=
  host (fun _ => Completed ("List of" +:+ TAB +:+ "device") "" 0).

(** A phone whose [dumpsys battery] prints [dump]. *)
Definition phone_with_battery (dump : string) : Env :=
  host (fun cmd =>
          match cmd with
          | ["adb"; "devices"] => Completed devices_listing "" 0
          | ["adb"; "shell"; "dumpsys"; "battery"] => Completed dump "" 0
          | _ => Completed "" "not available" 1
          end).

(** A [df] listing without a line for the data partition. *)
Definition df_system : string :=
  "Filesystem 1K-blocks Used Available" +:+ LF
  +:+ "/dev/block/dm-0 1000 900 100 /system".

(** A phone whose [df /data] exits with [df_code] and whose
    [dumpsys diskstats] prints [stats] and exits with [stats_code]. *)
Definition phone_with_storage (df_out : string) (df_code : Z)
    (stats : string) (stats_code : Z) : Env :=
  host (fun cmd =>
          match cmd with
          | ["adb"; "devices"] => Completed devices_listing "" 0
          | ["adb"; "shell"; "df"; "/data"] => Completed df_out "" df_code
          | ["adb"; "shell"; "dumpsys"; "diskstats"] => Completed stats "" stats_code
          | _ => Completed "" "not available" 1
          end).

(** A phone whose [dumpsys wifi] prints [wifi] and exits with [wifi_code],
    and whose [dumpsys telephony.registry] prints [telephony] and exits
    with [telephony_code]. *)
Definition phone_with_network (wifi : string) (wifi_code : Z)
    (telephony : string) (telephony_code : Z) : Env :=
  host (fun cmd =>
          match cmd with
          | ["adb"; "devices"] => Completed devices_listing "" 0
          | ["adb"; "shell"; "dumpsys"; "wifi"] => Completed wifi "" wifi_code
          | ["adb"; "shell"; "dumpsys"; "telephony.registry"] =>
              Completed telephony "" telephony_code
          | _ => Completed "" "not available" 1
          end).

(** A laptop on which [powercfg] exits with 1. *)
Definition laptop_without_powercfg : Env :=
  host (fun cmd =>
          match cmd with
          | "powercfg" :: _ => Completed "" "Unable to perform operation." 1
          | _ => Completed "" "not available" 1
          end).

(** A laptop whose drive [C:] reports the sizes [du]. *)
Definition laptop_with_disk (du : DiskUsage) : Env :=
  mkEnv (subprocess_run laptop) (temp_dir laptop) (fun _ _ => inr du)
    (cpu_percent laptop) (cpu_count laptop) (cpu_freq laptop)
    (virtual_memory laptop).

(** A laptop on which [psutil.cpu_count] raises. *)
Definition laptop_without_cpu_count : Env :=
  mkEnv (subprocess_run laptop) (temp_dir laptop) (disk_usage laptop)
    (cpu_percent laptop)
    (fun _ => inl (Py.mkExn Py.OtherException "not supported"))
    (cpu_freq laptop) (virtual_memory laptop).

(** A host whose [platform.system()] is none of the three the service knows. *)
Definition freebsd_host : Main.Host :=
  Main.mkHost "FreeBSD" 7 "14.0-RELEASE" 1700000000 1700000000.

(** * Properties *)

(** ** Facts about the runtime *)

Module PyFacts.
Import Py.










(** Rounding does not leave an interval with integer ends. *)
Lemma round_half_even_between (y : Q) (a b : Z) :
  (inject_Z a <= y)%Q -> (y <= inject_Z b)%Q ->
  a <= round_half_even y <= b.
Proof.
  intros Ha Hb. unfold round_half_even.
  pose proof (Qfloor_le y) as Hlo. pose proof (Qlt_floor y) as Hhi.
  assert (Hfa : a <= Qfloor y).
  { rewrite <- (Qfloor_Z a). now apply Qfloor_resp_le. }
  assert (Hfb : Qfloor y <= b).
  { rewrite <- (Qfloor_Z b). now apply Qfloor_resp_le. }
  remember (Qfloor y) as f eqn:Hf. clear Hf.
  rewrite inject_Z_plus in Hhi. change (inject_Z 1) with 1%Q in Hhi.
  destruct (Z.eq_dec f b) as [-> | Hne].
  - assert (Hy : (y - inject_Z b ?= 1 # 2)%Q = Lt).
    { apply (proj1 (Qlt_alt _ _)). clear Ha Hhi.
      generalize dependent (inject_Z b). intros; lra. }
    rewrite Hy. lia.
  - destruct (y - inject_Z f ?= 1 # 2)%Q; try destruct (Z.even f); lia.
Qed.

End PyFacts.

(** ** Rules for [wp] *)

Section Rules.
Context {A B : Type}.
Implicit Types (P : A -> History -> Prop) (Q : Py.Exn -> History -> Prop).

Lemma wp_ret (a : A) P Q h : P a h -> wp (ret a) P Q h.
Proof. exact (fun H => H). Qed.

Lemma wp_lift (r : Py.Result A) P Q h :
  match r with inr a => P a h | inl e => Q e h end -> wp (lift r) P Q h.
Proof. unfold wp, lift. now destruct r. Qed.

Lemma wp_call (c : Call) (answer : History -> A) P Q h :
  P (answer h) (h ++ [c])%list -> wp (call c answer) P Q h.
Proof. exact (fun H => H). Qed.

Lemma wp_bind (c : M A) (k : A -> M B) (P : B -> History -> Prop) Q h :
  wp c (fun a h' => wp (k a) P Q h') Q h -> wp (bind c k) P Q h.
Proof. unfold wp, bind. destruct (c h) as [[e | a] h']; auto. Qed.

Lemma wp_try (c : M A) (handler : Py.Exn -> M A) P Q h :
  wp c P (fun e h' => wp (handler e) P Q h') h ->
  wp (try_except c handler) P Q h.
Proof. unfold wp, try_except. destruct (c h) as [[e | a] h']; auto. Qed.

Lemma wp_conseq (c : M A) P P' Q Q' h :
  wp c P Q h ->
  (forall a h', P a h' -> P' a h') -> (forall e h', Q e h' -> Q' e h') ->
  wp c P' Q' h.
Proof. unfold wp. destruct (c h) as [[e | a] h']; auto. Qed.

Lemma wp_returns (c : M A) P h :
  wp c P (fun _ _ => False) h -> exists a h', returns c h a h' /\ P a h'.
Proof.
  unfold wp, returns. destruct (c h) as [[e | a] h']; [tauto | eauto].
Qed.

End Rules.

(** ** Equations for computations that return *)

Lemma returns_inj {A} (c : M A) h a1 h1 a2 h2 :
  returns c h a1 h1 -> returns c h a2 h2 -> a1 = a2 /\ h1 = h2.
Proof. unfold returns. intros -> [= -> ->]. now split. Qed.

Lemma bind_returns {A B} (c : M A) (k : A -> M B) h a h1 :
  returns c h a h1 -> bind c k h = k a h1.
Proof. unfold returns, bind. now intros ->. Qed.



(** ** The loop *)

(** A loop whose body only builds a value is [map]. *)
Lemma for_each_ret {A B} (g : A -> B) (l : list A) h :
  for_each (fun x => ret (g x)) l h = (inr (map g l), h).
Proof.
  induction l as [| x l IH]; [reflexivity |].
  simpl. unfold bind at 1. simpl. unfold bind at 1. now rewrite IH.
Qed.

(** When every round returns, relates its input to its output by [R] and
    adds [cost] to a count kept along the history, the loop returns, relates
    the lists pointwise and adds the sum of the costs. *)
Lemma wp_for_each_counting {A B} (f : A -> M B) (R : A -> B -> Prop)
    (cost : A -> nat) (mu : History -> nat) (l : list A) :
  (forall x h, wp (f x) (fun y h' => R x y /\ mu h' = (mu h + cost x)%nat)
                 (fun _ _ => False) h) ->
  forall h, wp (for_each f l)
              (fun ys h' => Forall2 R l ys /\ mu h' = (mu h + sum_list_with cost l)%nat)
              (fun _ _ => False) h.
Proof.
  intros Hf. induction l as [| x l IH]; intros h; simpl.
  - apply wp_ret. split; [constructor | lia].
  - apply wp_bind. eapply wp_conseq; [apply Hf | | tauto].
    intros y h1 [Hy H1]. apply wp_bind. eapply wp_conseq; [apply IH | | tauto].
    intros ys h2 [Hys H2]. apply wp_ret. split; [now constructor | lia].
Qed.

(** A loop over a concatenation is the two loops in sequence. *)
Lemma for_each_app {A B} (f : A -> M B) (l1 l2 : list A) h ys1 h1 ys2 h2 :
  returns (for_each f l1) h ys1 h1 ->
  returns (for_each f l2) h1 ys2 h2 ->
  returns (for_each f (l1 ++ l2)) h (ys1 ++ ys2) h2.
Proof.
  unfold returns. revert h ys1. induction l1 as [| x l1 IH]; intros h ys1 H1 H2.
  - injection H1 as <- <-. exact H2.
  - simpl in *. unfold bind in *.
    destruct (f x h) as [[e | y] h0]; [discriminate |].
    destruct (for_each f l1 h0) as [[e | ys] h0'] eqn:Hl1; [discriminate |].
    injection H1 as <- <-. now rewrite (IH _ _ Hl1 H2).
Qed.

(** An element whose round returns [synthetic] and leaves the history alone
    changes nothing around it. *)
Lemma for_each_insert (f : string -> M TestResult) (pre post : list string)
    (id : string) (synthetic : TestResult) (h : History) :
  (forall x h0, exists y h1, returns (f x) h0 y h1) ->
  (forall h0, returns (f id) h0 synthetic h0) ->
  exists rs1 rs2 h',
    length rs1 = length pre
    /\ returns (for_each f (pre ++ post)) h (rs1 ++ rs2) h'
    /\ returns (for_each f (pre ++ id :: post)) h (rs1 ++ synthetic :: rs2) h'.
Proof.
  intros Htotal Hid.
  assert (Hloop : forall l h0, exists ys h1,
             returns (for_each f l) h0 ys h1 /\ length ys = length l).
  { induction l as [| x l IH]; intros h0.
    - exists [], h0. now split.
    - destruct (Htotal x h0) as (y & h1 & Hy).
      destruct (IH h1) as (ys & h2 & Hys & Hlen).
      exists (y :: ys), h2. split; [| simpl; congruence].
      unfold returns in *. simpl. unfold bind. now rewrite Hy, Hys. }
  destruct (Hloop pre h) as (rs1 & h1 & Hpre & Hlen).
  destruct (Hloop post h1) as (rs2 & h2 & Hpost & _).
  exists rs1, rs2, h2. split; [exact Hlen |]. split.
  - now apply for_each_app with (h1 := h1).
  - apply for_each_app with (h1 := h1); [exact Hpre |].
    unfold returns in *. simpl. unfold bind. now rewrite (Hid h1), Hpost.
Qed.

Lemma Forall2_test_id (tests : list string) (rs : list TestResult) (P : TestResult -> Prop) :
  Forall2 (fun id r => test_id r = id /\ P r) tests rs ->
  map test_id rs = tests /\ Forall P rs.
Proof.
  induction 1 as [| id r tests rs [Hid HP] _ [IH1 IH2]]; simpl.
  - split; constructor.
  - split; [congruence | now constructor].
Qed.

Lemma sum_indicator {A} (p : A -> bool) (l : list A) :
  sum_list_with (fun x => if p x then 1%nat else 0%nat) l = length (List.filter p l).
Proof.
  induction l as [| x l IH]; simpl; [reflexivity |].
  destruct (p x); simpl; lia.
Qed.

(** ** Well-formed outcomes and counted checks *)

Lemma connectivity_checks_snoc h c :
  connectivity_checks (h ++ [c]) =
  (connectivity_checks h + (if bool_decide (c = adb_devices) then 1 else 0))%nat.
Proof.
  unfold connectivity_checks. rewrite List.filter_app, length_app. simpl.
  now destruct (bool_decide (c = adb_devices)).
Qed.

Lemma well_formed_error id cat expl advs :
  expl <> "" -> well_formed (error_result id cat expl advs).
Proof. intros H. split; simpl; [split; reflexivity || easy | easy]. Qed.

Lemma well_formed_verdict id cat st m expl (c : Q) advs :
  st <> Error -> ~ (c == 0)%Q -> well_formed (mkTestResult id cat st m expl c advs).
Proof. intros H1 H2. split; simpl; [split; intros; tauto | tauto]. Qed.

Ltac nonempty := simpl; discriminate.

(** ** The Android test functions *)

Module AndroidFacts.
Import Android.
Section Facts.
Variable E : Env.

Lemma wp_run_adb_command cmd (P : string * string * Z -> History -> Prop) Q h :
  (forall out err code, P (out, err, code) (h ++ [CallRun ("adb" :: cmd)])%list) ->
  wp (run_adb_command E cmd) P Q h.
Proof. intros H. unfold run_adb_command. apply wp_call. case_match; apply H. Qed.

Lemma wp_check_adb_connection (P : bool -> History -> Prop) Q h :
  (forall b, P b (h ++ [adb_devices])%list) -> wp (check_adb_connection E) P Q h.
Proof.
  intros H. unfold check_adb_connection. apply wp_bind, wp_run_adb_command.
  intros out err code. destruct (negb (code =? 0)); apply wp_ret, H.
Qed.

Lemma battery_rule_status (n : nat) level health status temp :
  v_status (battery_verdict_after n level health status temp) <> Error.
Proof.
  unfold battery_verdict_after, battery_rules.
  do 5 (destruct n as [| n]; [
    simpl; unfold rule_low_level, rule_temp_critical, rule_temp_high, rule_health;
    repeat case_match; simpl; discriminate |]).
  simpl; unfold rule_low_level, rule_temp_critical, rule_temp_high, rule_health;
    repeat case_match; simpl; discriminate.
Qed.

Lemma classify_battery_well_formed level health status temp voltage :
  well_formed (classify_battery level health status temp voltage).
Proof.
  apply well_formed_verdict; [apply battery_rule_status | discriminate].
Qed.

Lemma storage_status_not_error u : storage_status u <> Error.
Proof. unfold storage_status. repeat case_match; discriminate. Qed.

Lemma classify_storage_well_formed info : well_formed (classify_storage info).
Proof.
  apply well_formed_verdict; [apply storage_status_not_error | discriminate].
Qed.

Lemma classify_sensors_well_formed stdout : well_formed (classify_sensors stdout).
Proof.
  unfold classify_sensors. repeat case_match; simplify_eq;
    apply well_formed_verdict; discriminate.
Qed.

Lemma classify_connectivity_well_formed a b c :
  well_formed (classify_connectivity a b c).
Proof.
  unfold classify_connectivity. repeat case_match; simplify_eq;
    apply well_formed_verdict; discriminate.
Qed.


Lemma checks_devices h :
  connectivity_checks (h ++ [adb_devices]) = S (connectivity_checks h).
Proof. rewrite connectivity_checks_snoc. simpl. lia. Qed.

Lemma checks_other h c :
  c <> adb_devices -> connectivity_checks (h ++ [c]) = connectivity_checks h.
Proof.
  intros Hc. rewrite connectivity_checks_snoc.
  rewrite bool_decide_eq_false_2 by assumption. lia.
Qed.

Ltac wp_step :=
  lazymatch goal with
  | |- wp (try_except _ _) _ _ _ => apply wp_try
  | |- wp (bind _ _) _ _ _ => apply wp_bind
  | |- wp (ret _) _ _ _ => apply wp_ret
  | |- wp (lift _) _ _ _ => apply wp_lift
  | |- wp (check_adb_connection _) _ _ _ =>
      apply wp_check_adb_connection; intros ?
  | |- wp (run_adb_command _ _) _ _ _ =>
      apply wp_run_adb_command; intros ? ? ?
  | |- wp (if ?b then _ else _) _ _ _ => destruct b
  | |- wp (match ?x with _ => _ end) _ _ _ => destruct x
  | |- match ?x with _ => _ end => destruct x
  end; cbv beta iota.

Ltac count_checks :=
  repeat first
    [ rewrite checks_other by (unfold adb_devices; congruence)
    | rewrite checks_devices ];
  reflexivity.

Ltac outcome :=
  split; [reflexivity | split; [| count_checks]].

Lemma test_android_battery_outcome h :
  wp (test_android_battery E) (outcome_of "battery.health" h) (fun _ _ => False) h.
Proof.
  unfold test_android_battery. repeat wp_step; outcome;
    first [apply well_formed_error; nonempty | apply classify_battery_well_formed].
Qed.

Lemma test_android_storage_outcome h :
  wp (test_android_storage E) (outcome_of "storage.health" h) (fun _ _ => False) h.
Proof.
  unfold test_android_storage. repeat wp_step; outcome;
    first [apply well_formed_error; nonempty | apply classify_storage_well_formed].
Qed.

Lemma test_android_sensors_outcome h :
  wp (test_android_sensors E) (outcome_of "sensors.test" h) (fun _ _ => False) h.
Proof.
  unfold test_android_sensors. repeat wp_step; outcome;
    first [apply well_formed_error; nonempty | apply classify_sensors_well_formed].
Qed.

Lemma test_android_connectivity_outcome h :
  wp (test_android_connectivity E) (outcome_of "network.connectivity" h)
    (fun _ _ => False) h.
Proof.
  unfold test_android_connectivity. repeat wp_step; outcome;
    first [apply well_formed_error; nonempty
          | apply classify_connectivity_well_formed].
Qed.

End Facts.
End AndroidFacts.

Lemma run_adb_command_completed E cmd h out err code :
  subprocess_run E h ("adb" :: cmd) = Completed out err code ->
  Android.run_adb_command E cmd h
  = (inr (Py.strip out, Py.strip err, code), h ++ [CallRun ("adb" :: cmd)]).
Proof. intros H. unfold Android.run_adb_command, call. cbv zeta. now rewrite H. Qed.

Lemma find_storage_skip line rest :
  skipped line -> Android.find_storage (line :: rest) = Android.find_storage rest.
Proof.
  unfold skipped. simpl.
  repeat case_match; try discriminate; reflexivity.
Qed.

Lemma find_storage_skip_all before rest :
  Forall skipped before ->
  Android.find_storage (before ++ rest) = Android.find_storage rest.
Proof.
  induction 1 as [| line before Hl _ IH]; [reflexivity |].
  simpl app. now rewrite find_storage_skip.
Qed.


(** ** The Android runner *)

Module AndroidRun.
Import Android AndroidFacts.
Section Facts.
Variable E : Env.

Lemma android_catalog_inv id f :
  test_functions E !! id = Some f ->
  (id = "battery.health" /\ f = test_android_battery E)
  \/ (id = "storage.health" /\ f = test_android_storage E)
  \/ (id = "sensors.test" /\ f = test_android_sensors E)
  \/ (id = "network.connectivity" /\ f = test_android_connectivity E).
Proof.
  intros H. apply elem_of_list_to_map_2 in H.
  repeat (apply elem_of_cons in H as [H | H]; [injection H as -> ->; tauto |]).
  now apply elem_of_nil in H.
Qed.

Lemma run_one_outcome id h :
  wp (run_one E id)
    (fun r h' => (test_id r = id /\ well_formed r)
                 /\ connectivity_checks h' = (connectivity_checks h + dispatch_cost E id)%nat)
    (fun _ _ => False) h.
Proof.
  unfold run_one, dispatch_cost. destruct (test_functions E !! id) as [f |] eqn:Hf.
  - rewrite bool_decide_eq_true_2 by eauto. apply wp_try.
    apply android_catalog_inv in Hf as [[-> ->] | [[-> ->] | [[-> ->] | [-> ->]]]];
      (eapply wp_conseq;
       [ first [ apply test_android_battery_outcome
               | apply test_android_storage_outcome
               | apply test_android_sensors_outcome
               | apply test_android_connectivity_outcome ]
       | intros r h' (Hid & Hwf & Hn); rewrite Hn; split; [now split | lia]
       | intros e h' [] ]).
  - rewrite bool_decide_eq_false_2 by (intros [? ?]; discriminate).
    apply wp_ret. split; [split; [reflexivity | apply well_formed_error; nonempty] | lia].
Qed.

Lemma check_returns h :
  exists b, returns (check_adb_connection E) h b (h ++ [adb_devices]).
Proof.
  destruct (wp_returns (check_adb_connection E)
              (fun _ h' => h' = h ++ [adb_devices]) h) as (b & h' & Hr & ->).
  - now apply wp_check_adb_connection.
  - now exists b.
Qed.

Lemma run_unreachable tests h h' :
  returns (check_adb_connection E) h false h' ->
  returns (run_android_diagnostics E tests) h (map unreachable_result tests) h'.
Proof.
  unfold returns, run_android_diagnostics, bind. intros ->. simpl.
  apply for_each_ret.
Qed.

Lemma run_reachable tests h h' :
  returns (check_adb_connection E) h true h' ->
  run_android_diagnostics E tests h = for_each (run_one E) tests h'.
Proof. unfold returns, run_android_diagnostics, bind. now intros ->. Qed.

End Facts.
End AndroidRun.

Lemma android_run_one_returns E id h : exists r h', returns (Android.run_one E id) h r h'.
Proof.
  destruct (wp_returns _ _ _ (AndroidRun.run_one_outcome E id h)) as (r & h' & Hr & _).
  eauto.
Qed.

Lemma android_test_probes_once E f h :
  In f (android_tests E) ->
  exists r h', returns f h r h' /\ well_formed r
               /\ connectivity_checks h' = S (connectivity_checks h).
Proof.
  intros Hf. simpl in Hf.
  destruct Hf as [<- | [<- | [<- | [<- | []]]]];
    [ destruct (wp_returns _ _ _ (AndroidFacts.test_android_battery_outcome E h))
        as (r & h' & Hr & _ & Hwf & Hn)
    | destruct (wp_returns _ _ _ (AndroidFacts.test_android_storage_outcome E h))
        as (r & h' & Hr & _ & Hwf & Hn)
    | destruct (wp_returns _ _ _ (AndroidFacts.test_android_sensors_outcome E h))
        as (r & h' & Hr & _ & Hwf & Hn)
    | destruct (wp_returns _ _ _ (AndroidFacts.test_android_connectivity_outcome E h))
        as (r & h' & Hr & _ & Hwf & Hn) ];
    eauto.
Qed.

Lemma android_run_outcomes E tests h :
  exists rs h',
    returns (Android.run_android_diagnostics E tests) h rs h'
    /\ map test_id rs = tests /\ Forall well_formed rs.
Proof.
  destruct (AndroidRun.check_returns E h) as [[] Hc].
  - unfold returns at 1. rewrite (AndroidRun.run_reachable E tests _ _ Hc).
    destruct (wp_returns _ _ _
                (wp_for_each_counting _ _ _ connectivity_checks tests
                   (AndroidRun.run_one_outcome E) (h ++ [adb_devices])))
      as (rs & h' & Hr & HF & _).
    exists rs, h'. split; [exact Hr |]. now apply Forall2_test_id.
  - exists (map Android.unreachable_result tests), (h ++ [adb_devices]).
    split; [now apply AndroidRun.run_unreachable |]. split.
    + rewrite map_map. simpl. apply map_id.
    + induction tests as [| id tests IH]; constructor; [| exact IH].
      apply well_formed_error. nonempty.
Qed.

(** ** The Windows agent *)

Module WindowsFacts.
Import Windows.
Section Facts.
Variable E : Env.

Lemma wp_run_command cmd (P : string * string * Z -> History -> Prop) Q h :
  (forall out err code, P (out, err, code) (h ++ [CallRun cmd])) ->
  wp (run_command E cmd) P Q h.
Proof. intros H. unfold run_command. apply wp_call. case_match; apply H. Qed.

Ltac verdict_cases :=
  repeat case_match; simplify_eq; try exact I;
  (split; [reflexivity | apply well_formed_verdict; [| discriminate]]);
  repeat case_match; discriminate.

Lemma battery_report_result ps_output :
  match battery_report ps_output with
  | inr r => result_of "battery.health" r
  | inl _ => True
  end.
Proof. unfold battery_report, battery_status. verdict_cases. Qed.

Lemma storage_report_result du :
  match storage_report du with
  | inr r => result_of "storage.health" r
  | inl _ => True
  end.
Proof. unfold storage_report, storage_status. verdict_cases. Qed.

Lemma cpu_report_result p cores freq :
  result_of "cpu.temperature" (cpu_report p cores freq).
Proof. unfold cpu_report. verdict_cases. Qed.

Lemma memory_report_result memory :
  match memory_report memory with
  | inr r => result_of "memory.test" r
  | inl _ => True
  end.
Proof. unfold memory_report. verdict_cases. Qed.

Ltac wp_step :=
  lazymatch goal with
  | |- wp (try_except _ _) _ _ _ => apply wp_try
  | |- wp (bind _ _) _ _ _ => apply wp_bind
  | |- wp (ret _) _ _ _ => apply wp_ret
  | |- wp (lift (battery_report ?x)) _ _ _ =>
      apply wp_lift; pose proof (battery_report_result x);
      destruct (battery_report x)
  | |- wp (lift (storage_report ?x)) _ _ _ =>
      apply wp_lift; pose proof (storage_report_result x);
      destruct (storage_report x)
  | |- wp (lift (memory_report ?x)) _ _ _ =>
      apply wp_lift; pose proof (memory_report_result x);
      destruct (memory_report x)
  | |- wp (lift _) _ _ _ => apply wp_lift
  | |- wp (call _ _) _ _ _ => apply wp_call
  | |- wp (run_command _ _) _ _ _ => apply wp_run_command; intros ? ? ?
  | |- wp (if ?b then _ else _) _ _ _ => destruct b
  | |- wp (match ?x with _ => _ end) _ _ _ => destruct x
  | |- match ?x with _ => _ end => destruct x
  end; cbv beta iota.

Ltac result :=
  first [ assumption
        | apply cpu_report_result
        | split; [reflexivity | apply well_formed_error; nonempty] ].

Lemma test_battery_health_result h :
  wp (test_battery_health E) (fun r _ => result_of "battery.health" r)
    (fun _ _ => False) h.
Proof. unfold test_battery_health. repeat wp_step; result. Qed.

Lemma test_storage_health_result h :
  wp (test_storage_health E) (fun r _ => result_of "storage.health" r)
    (fun _ _ => False) h.
Proof. unfold test_storage_health. repeat wp_step; result. Qed.

Lemma test_cpu_temperature_result h :
  wp (test_cpu_temperature E) (fun r _ => result_of "cpu.temperature" r)
    (fun _ _ => False) h.
Proof. unfold test_cpu_temperature. repeat wp_step; result. Qed.

Lemma test_memory_result h :
  wp (test_memory E) (fun r _ => result_of "memory.test" r)
    (fun _ _ => False) h.
Proof. unfold test_memory. repeat wp_step; result. Qed.

Lemma windows_catalog_inv id f :
  test_functions E !! id = Some f ->
  (id = "battery.health" /\ f = test_battery_health E)
  \/ (id = "storage.health" /\ f = test_storage_health E)
  \/ (id = "cpu.temperature" /\ f = test_cpu_temperature E)
  \/ (id = "memory.test" /\ f = test_memory E).
Proof.
  intros H. apply elem_of_list_to_map_2 in H.
  repeat (apply elem_of_cons in H as [H | H]; [injection H as -> ->; tauto |]).
  now apply elem_of_nil in H.
Qed.

Lemma run_one_result id h :
  wp (run_one E id) (fun r _ => result_of id r) (fun _ _ => False) h.
Proof.
  unfold run_one. destruct (test_functions E !! id) as [f |] eqn:Hf.
  - apply wp_try.
    apply windows_catalog_inv in Hf as [[-> ->] | [[-> ->] | [[-> ->] | [-> ->]]]];
      (eapply wp_conseq;
       [ first [ apply test_battery_health_result
               | apply test_storage_health_result
               | apply test_cpu_temperature_result
               | apply test_memory_result ]
       | intros r h' Hr; exact Hr
       | intros e h' [] ]).
  - apply wp_ret. split; [reflexivity | apply well_formed_error; nonempty].
Qed.

End Facts.
End WindowsFacts.



Lemma windows_run_one_returns E id h : exists r h', returns (Windows.run_one E id) h r h'.
Proof.
  destruct (wp_returns _ _ _ (WindowsFacts.run_one_result E id h)) as (r & h' & Hr & _).
  eauto.
Qed.

Lemma windows_test_result E f h :
  In f (windows_tests E) -> exists r h', returns f h r h' /\ well_formed r.
Proof.
  intros Hf. simpl in Hf.
  destruct Hf as [<- | [<- | [<- | [<- | []]]]];
    [ destruct (wp_returns _ _ _ (WindowsFacts.test_battery_health_result E h))
        as (r & h' & Hr & _ & Hwf)
    | destruct (wp_returns _ _ _ (WindowsFacts.test_storage_health_result E h))
        as (r & h' & Hr & _ & Hwf)
    | destruct (wp_returns _ _ _ (WindowsFacts.test_cpu_temperature_result E h))
        as (r & h' & Hr & _ & Hwf)
    | destruct (wp_returns _ _ _ (WindowsFacts.test_memory_result E h))
        as (r & h' & Hr & _ & Hwf) ];
    eauto.
Qed.

Lemma windows_run_outcomes E tests h :
  exists rs h',
    returns (Windows.run_windows_diagnostics E tests) h rs h'
    /\ map test_id rs = tests /\ Forall well_formed rs.
Proof.
  destruct (wp_returns _ _ _
              (wp_for_each_counting _ (fun id r => result_of id r) (fun _ => 0%nat)
                 (fun _ => 0%nat) tests
                 (fun id h0 => wp_conseq _ _ _ _ _ _
                    (WindowsFacts.run_one_result E id h0)
                    (fun r _ Hr => conj Hr eq_refl) (fun _ _ F => F)) h))
    as (rs & h' & Hr & HF & _).
  exists rs, h'. split; [exact Hr |]. now apply Forall2_test_id.
Qed.

(** ** The summary *)

Lemma count_status_bounds s results :
  0 <= Backend.count_status s results <= Z.of_nat (length results).
Proof.
  unfold Backend.count_status. split; [lia |].
  apply inj_le. induction results as [| r results IH]; simpl; [lia |].
  destruct (String.eqb (status_str (status r)) s); simpl; lia.
Qed.


(** ** The properties of the specification *)

(** Claim C1.  Every diagnostic run, on the Android agent and on the Windows
    agent, for every list of requested ids, from every history and whatever
    the machine answers, returns; the list it returns has one outcome per
    requested id, in the order of the request: the ids of the outcomes are
    the requested list itself. *)
Theorem one_outcome_per_requested_id (E : Env) (tests : list string) (h : History) :
  (exists rs h',
      returns (Android.run_android_diagnostics E tests) h rs h'
      /\ length rs = length tests /\ map test_id rs = tests)
  /\ (exists rs h',
         returns (Windows.run_windows_diagnostics E tests) h rs h'
         /\ length rs = length tests /\ map test_id rs = tests).
Proof.
  split.
  - destruct (android_run_outcomes E tests h) as (rs & h' & Hr & Hid & _).
    exists rs, h'. repeat split; [exact Hr | | exact Hid].
    now rewrite <- Hid, length_map.
  - destruct (windows_run_outcomes E tests h) as (rs & h' & Hr & Hid & _).
    exists rs, h'. repeat split; [exact Hr | | exact Hid].
    now rewrite <- Hid, length_map.
Qed.

(** Claim C2.  When the connectivity check of an Android run fails, the run
    returns for every requested id an error outcome carrying one and the same
    list of transport advisories.  The history grows by the runner's own
    [adb devices] probe and by nothing else, whereas every test function,
    whenever it is invoked, probes the device once more: none was invoked. *)
Theorem unreachable_device_short_circuits
    (E : Env) (tests : list string) (h h1 : History) :
  returns (Android.check_adb_connection E) h false h1 ->
  let rs := map Android.unreachable_result tests in
  returns (Android.run_android_diagnostics E tests) h rs (h ++ [adb_devices])
  /\ Forall (fun r => status r = Error
                      /\ advisories r = Android.transport_advisories) rs
  /\ (forall f h0, In f (android_tests E) ->
        connectivity_checks (snd (f h0)) = S (connectivity_checks h0)).
Proof.
  intros Hc rs. destruct (AndroidRun.check_returns E h) as [b Hb].
  destruct (returns_inj _ _ _ _ _ _ Hc Hb) as [<- ->].
  split; [now apply AndroidRun.run_unreachable |]. split.
  - subst rs. induction tests; constructor; auto.
  - intros f h0 Hf.
    destruct (android_test_probes_once E f h0 Hf) as (r & h' & Hr & _ & Hn).
    unfold returns in Hr. now rewrite Hr.
Qed.

(** Claim C2 on a host without a device, for the two ids of the example. *)
Lemma unreachable_device_example :
  returns (Android.check_adb_connection no_phone) [] false [adb_devices]
  /\ returns (Android.run_android_diagnostics no_phone
                ["battery.health"; "storage.health"]) []
       [Android.unreachable_result "battery.health";
        Android.unreachable_result "storage.health"] [adb_devices].
Proof.
  split; [reflexivity |].
  apply (unreachable_device_short_circuits no_phone
           ["battery.health"; "storage.health"] [] [adb_devices]).
  reflexivity.
Defined.

(** Claim C3, amended.  Both storage classifiers give 'pass' below 80, 'warn'
    from 80 up to but not including 90, and 'fail' from 90 on; the outcome of
    either storage test carries that verdict for its usage percentage; usage
    82 gives 'warn', 95 gives 'fail' and 50 gives 'pass'. *)
Theorem storage_usage_bands :
  storage_bands Android.storage_status
  /\ storage_bands Windows.storage_status
  /\ (forall info,
        status (Android.classify_storage info)
        = Android.storage_status (Android.usage_percentage info))
  /\ (forall du r,
        Windows.storage_report du = inr r ->
        exists u, metric "usage_percentage" (metrics r) = Some (VNum u)
                  /\ status r = Windows.storage_status u)
  /\ (Android.storage_status (NFloat 820) = Warn
      /\ Android.storage_status (NFloat 950) = Fail
      /\ Android.storage_status (NFloat 500) = Pass)
  /\ (Windows.storage_status (NFloat 820) = Warn
      /\ Windows.storage_status (NFloat 950) = Fail
      /\ Windows.storage_status (NFloat 500) = Pass).
Proof.
  assert (Hbands : forall classify,
            (forall u, classify u = if num_lt u 80 then Pass
                                    else if num_lt u 90 then Warn else Fail) ->
            storage_bands classify).
  { intros classify Hc u. rewrite Hc. unfold num_lt.
    destruct (Z.ltb_spec (num_tenths u) (10 * 80)),
      (Z.ltb_spec (num_tenths u) (10 * 90));
      repeat split; intros; try reflexivity; lia. }
  split; [now apply Hbands |]. split; [now apply Hbands |].
  split; [reflexivity |]. split; [| now repeat split].
  intros du r. unfold Windows.storage_report.
  repeat case_match; try discriminate; intros [= <-]; simpl;
    eexists; (split; [reflexivity | congruence]).
Qed.

(** Claim C3, amended, at usage 82. *)
Lemma storage_usage_bands_example :
  800 <= num_tenths (NFloat 820) < 900 /\ Android.storage_status (NFloat 820) = Warn.
Proof.
  split; [simpl; lia |].
  apply (proj1 storage_usage_bands (NFloat 820)). simpl. lia.
Defined.

(** Claim C3 as stated puts usage 90 in the warn band.  Both classifiers give
    'fail' there, and so does the Android storage test on a partition with
    900 of 1000 blocks used. *)
Lemma storage_ninety_percent_fails :
  ~ storage_table Android.storage_status
  /\ ~ storage_table Windows.storage_status
  /\ exists r h',
       returns (Android.test_android_storage (phone df_ninety)) [] r h'
       /\ metric "usage_percentage" (metrics r) = Some (VNum (NFloat 900))
       /\ status r = Fail.
Proof.
  split; [| split].
  - intros H. destruct (H (NFloat 900)) as (_ & Hw & _).
    specialize (Hw ltac:(simpl; lia)). discriminate.
  - intros H. destruct (H (NFloat 900)) as (_ & Hw & _).
    specialize (Hw ltac:(simpl; lia)). discriminate.
  - eexists _, _. split; [vm_compute; reflexivity |]. split; reflexivity.
Qed.




(** Claim C5.  Along the four rules of the Android battery classification
    the verdict never moves to a lower severity.  When the temperature is
    above 50 degrees the verdict is 'fail' after the third rule and after
    every later one, and it is the status of the outcome.  With the health
    flag "Good" and a temperature of 45.0 degrees the outcome is 'warn' and
    its advisories include the high-temperature one. *)
Theorem battery_verdict_escalates_only
    (level : Z) (health charging : string) (temp : Num) (voltage : Z) :
  (forall n,
      (severity (Android.v_status (Android.battery_verdict_after n level health charging temp))
       <= severity (Android.v_status (Android.battery_verdict_after (S n) level health charging temp)))%nat)
  /\ (num_gt temp 50 = true ->
      status (Android.classify_battery level health charging temp voltage) = Fail
      /\ forall n, (3 <= n)%nat ->
           Android.v_status (Android.battery_verdict_after n level health charging temp) = Fail)
  /\ (status (Android.classify_battery level "Good" charging (NFloat 450) voltage) = Warn
      /\ In HIGH_TEMPERATURE_45
           (advisories (Android.classify_battery level "Good" charging (NFloat 450) voltage))).
Proof.
  split; [| split].
  - intros n. unfold Android.battery_verdict_after, Android.battery_rules.
    do 4 (destruct n as [| n];
          [ simpl; unfold Android.rule_low_level, Android.rule_temp_critical,
              Android.rule_temp_high, Android.rule_health;
            repeat (case_match; simpl); lia |]).
    rewrite !take_ge by (simpl; lia). lia.
  - intros Hhot.
    assert (H3 : forall n, (3 <= n)%nat ->
              Android.v_status (Android.battery_verdict_after n level health charging temp) = Fail).
    { intros n Hn. unfold Android.battery_verdict_after, Android.battery_rules.
      do 3 (destruct n as [| n]; [lia |]).
      destruct n as [| n]; [| rewrite take_ge by (simpl; lia)]; simpl;
        unfold Android.rule_low_level, Android.rule_temp_critical;
        rewrite Hhot; repeat case_match; reflexivity. }
    split; [apply (H3 4%nat); lia | exact H3].
  - unfold Android.classify_battery, Android.battery_verdict_after; simpl.
    unfold Android.rule_low_level. case_match; simpl.
    + split; [reflexivity | left; reflexivity].
    + split; [reflexivity | left; reflexivity].
Qed.

(** The battery test itself on a phone that reports 450 tenths of a degree. *)
Example warm_phone_battery :
  exists r h',
    returns (Android.test_android_battery (phone df_ninety)) [] r h'
    /\ status r = Warn
    /\ advisories r = [HIGH_TEMPERATURE_45]
    /\ metric "temperature_celsius" (metrics r) = Some (VNum (NFloat 450)).
Proof. eexists _, _. split; [vm_compute; reflexivity |]. now repeat split. Qed.

(** Claim C5 at 50.5 degrees. *)
Lemma battery_overheating_example :
  num_gt (NFloat 505) 50 = true
  /\ status (Android.classify_battery 80 "Good" "2" (NFloat 505) 4100) = Fail.
Proof.
  split; [reflexivity |].
  exact (proj1 (proj1 (proj2 (battery_verdict_escalates_only
                                80 "Good" "2" (NFloat 505) 4100)) eq_refl)).
Defined.

(** Claim C6 as stated speaks of every run.  On a host without a device the
    Android run gives the unknown id foo.bar the transport outcome, whose
    explanation does not name the test as not implemented. *)
Lemma unknown_id_on_unreachable_device :
  Android.test_functions no_phone !! "foo.bar" = None
  /\ exists rs h',
       returns (Android.run_android_diagnostics no_phone ["foo.bar"]) [] rs h'
       /\ ~ In (not_implemented "foo.bar") rs
       /\ Forall (fun r => explanation r <> "Test not implemented: foo.bar") rs.
Proof.
  split; [reflexivity |].
  eexists _, _. split; [vm_compute; reflexivity |]. split.
  - intros [H | []]. discriminate H.
  - repeat constructor. discriminate.
Qed.

(** Claim C6, amended.  In a run that reaches the dispatch loop (every
    Windows run; an Android run whose connectivity check passed) a requested
    id that the catalog misses yields the synthetic outcome with status
    'error', category 'unknown' and the explanation "Test not implemented:"
    followed by the id, and the other requested ids yield, in the same
    order and with the same final history, exactly the outcomes of the run
    without that id.  An Android run whose connectivity check failed gives
    the id the transport outcome, like every other requested id. *)
Theorem unknown_id_reported_and_batch_continues
    (E : Env) (pre post : list string) (id : string) :
  (Windows.test_functions E !! id = None ->
   forall h, exists rs1 rs2 h',
     length rs1 = length pre
     /\ returns (Windows.run_windows_diagnostics E (pre ++ post)) h (rs1 ++ rs2) h'
     /\ returns (Windows.run_windows_diagnostics E (pre ++ id :: post)) h
          (rs1 ++ not_implemented id :: rs2) h')
  /\ (Android.test_functions E !! id = None ->
      forall h h1, returns (Android.check_adb_connection E) h true h1 ->
      exists rs1 rs2 h',
        length rs1 = length pre
        /\ returns (Android.run_android_diagnostics E (pre ++ post)) h (rs1 ++ rs2) h'
        /\ returns (Android.run_android_diagnostics E (pre ++ id :: post)) h
             (rs1 ++ not_implemented id :: rs2) h')
  /\ (forall h h1, returns (Android.check_adb_connection E) h false h1 ->
      returns (Android.run_android_diagnostics E (pre ++ id :: post)) h
        (map Android.unreachable_result (pre ++ id :: post)) h1).
Proof.
  split; [| split].
  - intros Hmiss h. apply for_each_insert.
    + apply windows_run_one_returns.
    + intros h0. unfold returns, Windows.run_one. now rewrite Hmiss.
  - intros Hmiss h h1 Hc. unfold returns.
    rewrite !(AndroidRun.run_reachable E _ _ _ Hc). apply for_each_insert.
    + apply android_run_one_returns.
    + intros h0. unfold returns, Android.run_one. now rewrite Hmiss.
  - intros h h1 Hc. now apply AndroidRun.run_unreachable.
Qed.

(** Claim C6, amended, for the id foo.bar: between two Windows tests, and
    after the battery test on a connected phone. *)
Lemma unknown_id_example :
  (exists rs1 rs2 h',
      length rs1 = 1%nat
      /\ returns (Windows.run_windows_diagnostics laptop
                    (["memory.test"] ++ ["cpu.temperature"]))
           [] (rs1 ++ rs2) h'
      /\ returns (Windows.run_windows_diagnostics laptop
                    (["memory.test"] ++ "foo.bar" :: ["cpu.temperature"]))
           [] (rs1 ++ not_implemented "foo.bar" :: rs2) h')
  /\ (exists rs1 rs2 h',
         length rs1 = 1%nat
         /\ returns (Android.run_android_diagnostics (phone df_ninety)
                       (["battery.health"] ++ []))
              [] (rs1 ++ rs2) h'
         /\ returns (Android.run_android_diagnostics (phone df_ninety)
                       (["battery.health"] ++ "foo.bar" :: []))
              [] (rs1 ++ not_implemented "foo.bar" :: rs2) h').
Proof.
  split.
  - apply (proj1 (unknown_id_reported_and_batch_continues laptop
                    ["memory.test"] ["cpu.temperature"] "foo.bar")).
    reflexivity.
  - apply (proj1 (proj2 (unknown_id_reported_and_batch_continues (phone df_ninety)
                           ["battery.health"] [] "foo.bar"))
             eq_refl [] [adb_devices]).
    reflexivity.
Defined.

(** Claim C7.  For every outcome that a test function or a runner of either
    agent returns, on any machine and from any history, the confidence is 0
    exactly when the status is 'error', and an 'error' outcome has a
    non-empty explanation. *)
Theorem confidence_zero_exactly_on_error (E : Env) (r : TestResult) :
  produced E r ->
  ((confidence r == 0)%Q <-> status r = Error)
  /\ (status r = Error -> explanation r <> "").
Proof.
  intros [f h h' Hf Hr | tests rs h h' Hr Hin | tests rs h h' Hr Hin].
  - apply in_app_or in Hf as [Hf | Hf].
    + destruct (android_test_probes_once E f h Hf) as (r' & h1 & Hr' & Hwf & _).
      now destruct (returns_inj _ _ _ _ _ _ Hr Hr') as [-> _].
    + destruct (windows_test_result E f h Hf) as (r' & h1 & Hr' & Hwf).
      now destruct (returns_inj _ _ _ _ _ _ Hr Hr') as [-> _].
  - destruct (android_run_outcomes E tests h) as (rs' & h1 & Hr' & _ & Hall).
    destruct (returns_inj _ _ _ _ _ _ Hr Hr') as [-> _].
    exact (proj1 (List.Forall_forall _ _) Hall r Hin).
  - destruct (windows_run_outcomes E tests h) as (rs' & h1 & Hr' & _ & Hall).
    destruct (returns_inj _ _ _ _ _ _ Hr Hr') as [-> _].
    exact (proj1 (List.Forall_forall _ _) Hall r Hin).
Qed.

(** Claim C7 on an outcome of a run without a device. *)
Lemma confidence_example :
  produced no_phone (Android.unreachable_result "battery.health")
  /\ ((confidence (Android.unreachable_result "battery.health") == 0)%Q
      <-> status (Android.unreachable_result "battery.health") = Error).
Proof.
  assert (Hp : produced no_phone (Android.unreachable_result "battery.health")).
  { apply (produced_by_android_run no_phone _ ["battery.health"]
             [Android.unreachable_result "battery.health"] [] [adb_devices]).
    - reflexivity.
    - left. reflexivity. }
  split; [exact Hp |].
  exact (proj1 (confidence_zero_exactly_on_error no_phone _ Hp)).
Defined.



(** Claim C9, amended.  An Android run evaluates the connectivity check once
    before the loop, and every requested id of the catalog evaluates it once
    more in its own test function: the run adds one check to the history
    when the check fails, and one plus the number of requested ids of the
    catalog when it passes. *)
Theorem connectivity_checked_by_runner_and_each_test
    (E : Env) (tests : list string) (h : History) :
  exists connected rs h',
    returns (Android.check_adb_connection E) h connected (h ++ [adb_devices])
    /\ returns (Android.run_android_diagnostics E tests) h rs h'
    /\ connectivity_checks h'
       = (connectivity_checks h + 1
          + (if connected then length (catalogued E tests) else 0))%nat.
Proof.
  destruct (AndroidRun.check_returns E h) as [[] Hc].
  - destruct (wp_returns _ _ _
                (wp_for_each_counting _ _ _ connectivity_checks tests
                   (AndroidRun.run_one_outcome E) (h ++ [adb_devices])))
      as (rs & h' & Hr & _ & Hn).
    exists true, rs, h'. split; [exact Hc |]. split.
    + unfold returns. now rewrite (AndroidRun.run_reachable E tests _ _ Hc).
    + rewrite Hn, AndroidFacts.checks_devices.
      unfold dispatch_cost, catalogued. rewrite sum_indicator. lia.
  - exists false, (map Android.unreachable_result tests), (h ++ [adb_devices]).
    split; [exact Hc |]. split; [now apply AndroidRun.run_unreachable |].
    rewrite AndroidFacts.checks_devices. lia.
Qed.

(** Claim C9 as stated: exactly one check per run.  A run of the battery test
    alone on a connected phone shows two. *)
Lemma connectivity_checked_twice :
  ~ checked_once (phone df_ninety) ["battery.health"] [].
Proof. unfold checked_once. vm_compute. discriminate. Qed.



(** * Further properties of the code *)

(** ** More equations *)

Lemma run_adb_command_history E cmd h x h' :
  returns (Android.run_adb_command E cmd) h x h' ->
  h' = h ++ [CallRun ("adb" :: cmd)].
Proof. unfold returns, Android.run_adb_command, call. now intros [= _ <-]. Qed.

(** Without a completed process the exit code is -1. *)
Lemma run_adb_command_not_completed E cmd h :
  (forall out err code,
      subprocess_run E h ("adb" :: cmd) <> Completed out err code) ->
  exists err,
    returns (Android.run_adb_command E cmd) h ("", err, -1)
      (h ++ [CallRun ("adb" :: cmd)]).
Proof.
  intros H. unfold returns, Android.run_adb_command, call. cbv zeta.
  destruct (subprocess_run E h ("adb" :: cmd)) as [out err code | | msg | msg];
    [now destruct (H out err code) | eauto ..].
Qed.

(** ** Lines *)

Lemma split_on_nonempty sep s : Py.split_on sep s <> [].
Proof.
  destruct s as [| c s]; simpl; [discriminate |].
  destruct (Ascii.eqb c sep); [discriminate |].
  destruct (Py.split_on sep s); discriminate.
Qed.

Lemma split_on_app sep a b :
  Py.split_on sep (a +:+ String sep b) = Py.split_on sep a ++ Py.split_on sep b.
Proof.
  induction a as [| c a IH]; simpl.
  - now rewrite Ascii.eqb_refl.
  - rewrite IH. destruct (Ascii.eqb c sep); [reflexivity |].
    destruct (Py.split_on sep a) eqn:Ha; [| reflexivity].
    now destruct (split_on_nonempty sep a).
Qed.

Lemma split_on_one_line sep s :
  Py.contains (String sep EmptyString) s = false -> Py.split_on sep s = [s].
Proof.
  induction s as [| c s IH]; simpl; [reflexivity |].
  intros [Hp Hs]%orb_false_elim.
  destruct (Ascii.eqb_spec sep c) as [-> | Hne].
  - simpl in Hp. destruct (ascii_dec c c); [| congruence].
    destruct s; discriminate.
  - rewrite (proj2 (Ascii.eqb_neq c sep)) by congruence. now rewrite IH.
Qed.

(** ** The connectivity check *)

Lemma check_adb_connection_unfold E h out err code h1 :
  returns (Android.run_adb_command E ["devices"]) h (out, err, code) h1 ->
  returns (Android.check_adb_connection E) h
    (if negb (code =? 0) then false
     else existsb Android.device_line (tail (Py.split_on NL out))) h1.
Proof.
  intros Hr. unfold returns, Android.check_adb_connection.
  rewrite (bind_returns _ _ _ _ _ Hr). cbv beta iota.
  now destruct (negb (code =? 0)).
Qed.

(** Property X1.  The connectivity check answers no whenever [adb devices] does not
    run to completion (time-out, missing program, any other failure) or
    exits with a code other than 0, and whenever its trimmed output is a
    single line: the first line is the header and is never taken for a
    device. *)
Theorem check_fails_without_device_line (E : Env) (h : History) :
  ((forall out err code,
       subprocess_run E h ["adb"; "devices"] <> Completed out err code) ->
   returns (Android.check_adb_connection E) h false (h ++ [adb_devices]))
  /\ (forall out err code,
        subprocess_run E h ["adb"; "devices"] = Completed out err code ->
        code <> 0 ->
        returns (Android.check_adb_connection E) h false (h ++ [adb_devices]))
  /\ (forall out err,
        subprocess_run E h ["adb"; "devices"] = Completed out err 0 ->
        Py.contains LF (Py.strip out) = false ->
        returns (Android.check_adb_connection E) h false (h ++ [adb_devices])).
Proof.
  split; [| split].
  - intros Hnot.
    destruct (run_adb_command_not_completed E ["devices"] h Hnot) as [err Hr].
    exact (check_adb_connection_unfold _ _ _ _ _ _ Hr).
  - intros out err code Hrun Hcode.
    pose proof (check_adb_connection_unfold E h _ _ _ _
                  (run_adb_command_completed E ["devices"] h out err code Hrun)) as Hc.
    now rewrite (proj2 (Z.eqb_neq code 0) Hcode) in Hc.
  - intros out err Hrun Hline.
    pose proof (check_adb_connection_unfold E h _ _ _ _
                  (run_adb_command_completed E ["devices"] h out err 0 Hrun)) as Hc.
    now rewrite (split_on_one_line NL _ Hline) in Hc.
Qed.

(** Property X1 on a host whose [adb devices] prints a header that itself ends in a
    tab and the word device. *)
Lemma check_fails_on_header_only :
  returns (Android.check_adb_connection header_only_host) [] false [adb_devices].
Proof.
  apply (proj2 (proj2 (check_fails_without_device_line header_only_host []))
           ("List of" +:+ TAB +:+ "device") "");
    reflexivity.
Defined.

(** ** The battery test *)

(** The battery test up to the dump: a connected device and the answer of
    [dumpsys battery]. *)
Lemma test_android_battery_dump E h h1 out err code h2 :
  returns (Android.check_adb_connection E) h true h1 ->
  returns (Android.run_adb_command E ["shell"; "dumpsys"; "battery"]) h1
    (out, err, code) h2 ->
  Android.test_android_battery E h
  = if negb (code =? 0)
    then (inr (error_result "battery.health" "power"
                 "Could not retrieve battery information"
                 ["Check ADB permissions"]), h2)
    else match Android.battery_metrics (Android.parse_battery out) with
         | inr (level, health, charging, temp, voltage) =>
             (inr (Android.classify_battery level health charging temp voltage), h2)
         | inl e =>
             (inr (error_result "battery.health" "power"
                     ("Battery test failed: " +:+ Py.exn_str e) []), h2)
         end.
Proof.
  intros Hc Hd. unfold Android.test_android_battery, try_except.
  rewrite (bind_returns _ _ _ _ _ Hc). change (negb true) with false. cbv iota.
  rewrite (bind_returns _ _ _ _ _ Hd). cbv beta iota.
  destruct (negb (code =? 0)); [reflexivity |].
  unfold bind, lift.
  destruct (Android.battery_metrics (Android.parse_battery out))
    as [e | [[[[level health] charging] temp] voltage]]; reflexivity.
Qed.

(** Property X2.  A battery dump that has none of the keys level, health, status,
    temperature and voltage is not an error: the test takes level 0, health
    and status Unknown, temperature 0.0 and voltage 0, and returns 'warn'
    with the replacement advisory and the low-level advisory. *)
Theorem battery_defaults_for_missing_keys
    (E : Env) (h h1 h2 : History) (out err : string) :
  returns (Android.check_adb_connection E) h true h1 ->
  returns (Android.run_adb_command E ["shell"; "dumpsys"; "battery"]) h1
    (out, err, 0) h2 ->
  Forall (fun key => Android.parse_battery out !! key = None)
    ["level"; "health"; "status"; "temperature"; "voltage"] ->
  exists r,
    returns (Android.test_android_battery E) h r h2
    /\ r = Android.classify_battery 0 "Unknown" "Unknown" (NFloat 0) 0
    /\ status r = Warn
    /\ explanation r
       = "Battery level: 0%, Health: Unknown. Battery health is not optimal."
    /\ advisories r = ["Consider battery replacement if issues persist";
                       "Battery level is low, consider charging"].
Proof.
  intros Hc Hd Hkeys. eexists. split; [| repeat split].
  unfold returns. rewrite (test_android_battery_dump _ _ _ _ _ _ _ Hc Hd).
  change (negb (0 =? 0)) with false. cbv iota.
  unfold Android.battery_metrics.
  repeat (apply Forall_cons_1 in Hkeys as [-> Hkeys]). reflexivity.
Qed.

(** Property X2 on a phone whose battery dump is empty. *)
Lemma battery_defaults_example :
  exists r,
    returns (Android.test_android_battery (phone_with_battery "")) [] r
      [adb_devices; adb_battery]
    /\ status r = Warn.
Proof.
  destruct (battery_defaults_for_missing_keys (phone_with_battery "")
              [] [adb_devices] [adb_devices; adb_battery] "" "")
    as (r & Hr & _ & Hs & _); try reflexivity.
  - repeat constructor.
  - exists r. now split.
Defined.



Lemma all_chars_contains (p : ascii -> bool) (c : ascii) (s : string) :
  p c = false -> Py.contains (String c EmptyString) s = true ->
  Py.all_chars p s = false.
Proof.
  intros Hp. induction s as [| d s IH]; simpl; [discriminate |].
  destruct (ascii_dec c d) as [<- | Hne].
  - now rewrite Hp.
  - intros Hs. rewrite IH; [apply andb_false_r |].
    destruct s; exact Hs.
Qed.

Lemma isdigit_all_chars s :
  Py.isdigit s = true -> Py.all_chars Py.isdigit_char s = true.
Proof. destruct s; [discriminate | exact (fun H => H)]. Qed.

(** Property X4.  A temperature reading that is negative or has a decimal point is
    not all digits: the battery test discards it, records the temperature as
    the integer 0, and no temperature rule fires, so the outcome is never
    'fail'. *)
Theorem battery_discards_signed_or_fractional_temperature
    (info : gmap string string) (reading : string)
    (level : Z) (health charging : string) (temp : Num) (voltage : Z) :
  info !! "temperature" = Some reading ->
  Py.contains "-" reading = true \/ Py.contains "." reading = true ->
  Android.battery_metrics info = inr (level, health, charging, temp, voltage) ->
  temp = NInt 0
  /\ status (Android.classify_battery level health charging temp voltage) <> Fail
  /\ metric "temperature_celsius"
       (metrics (Android.classify_battery level health charging temp voltage))
     = Some (VNum (NInt 0)).
Proof.
  intros Hread Hshape Hm.
  assert (Hnot : Py.isdigit reading = false).
  { destruct (Py.isdigit reading) eqn:Hd; [| reflexivity].
    apply isdigit_all_chars in Hd.
    destruct Hshape as [Hs | Hs];
      eapply all_chars_contains in Hs; try rewrite Hs in Hd; try discriminate;
      reflexivity. }
  assert (Ht : temp = NInt 0).
  { unfold Android.battery_metrics in Hm. rewrite Hread in Hm. cbv zeta in Hm.
    simpl default in Hm. rewrite Hnot in Hm.
    repeat case_match; try discriminate; now injection Hm as _ _ _ <- _. }
  subst temp. split; [reflexivity |]. split; [| reflexivity].
  unfold Android.classify_battery, Android.battery_verdict_after. simpl.
  unfold Android.rule_low_level, Android.rule_health.
  repeat case_match; discriminate.
Qed.

(** Property X4 on a dump that reports 5 degrees below zero. *)
Lemma battery_negative_temperature_example :
  status (Android.classify_battery 85 "Good" "2" (NInt 0) 0) <> Fail.
Proof.
  apply (battery_discards_signed_or_fractional_temperature
           (Android.parse_battery
              ("level: 85" +:+ LF +:+ "health: Good" +:+ LF
               +:+ "status: 2" +:+ LF +:+ "temperature: -50"))
           "-50" 85 "Good" "2" (NInt 0) 0);
    [reflexivity | left; reflexivity | reflexivity].
Defined.

(** Property X5.  The verdict of the battery classification: 'fail' exactly when the
    temperature is above 50, 'pass' exactly when the health flag is good (in
    any letter case) and the temperature is not above 40, 'warn' otherwise;
    never 'error'; the level, the charging status and the voltage have no
    part in it. *)
Theorem battery_status_table
    (level : Z) (health charging : string) (temp : Num) (voltage : Z) :
  let r := Android.classify_battery level health charging temp voltage in
  (status r = Fail <-> num_gt temp 50 = true)
  /\ (status r = Pass <->
      Py.lower health = "good" /\ num_gt temp 40 = false)
  /\ status r <> Error
  /\ (forall level' charging' voltage',
        status (Android.classify_battery level' health charging' temp voltage')
        = status r).
Proof.
  assert (H45 : num_gt temp 50 = true -> num_gt temp 40 = true).
  { unfold num_gt. rewrite !Z.ltb_lt. lia. }
  cbv zeta. unfold Android.classify_battery, Android.battery_verdict_after. simpl.
  unfold Android.rule_low_level, Android.rule_temp_critical,
    Android.rule_temp_high, Android.rule_health.
  destruct (String.eqb_spec (Py.lower health) "good") as [Hg | Hg];
    destruct (num_gt temp 40) eqn:H40; destruct (num_gt temp 50) eqn:H50;
    try (specialize (H45 eq_refl); discriminate);
    simpl; repeat split; intros; repeat case_match; simpl in *;
    try tauto; try congruence; try discriminate; try (destruct_and?; congruence).
Qed.

(** Property X6.  The advisories of the battery classification: there is none exactly
    when the health flag is good, the temperature is not above 40 and the
    battery is not low while not charging; the overheating advisory is there
    exactly when the verdict is 'fail'; the low-level advisory exactly when
    the level is under 15 and the status is not charging. *)
Theorem battery_advisories_table
    (level : Z) (health charging : string) (temp : Num) (voltage : Z) :
  let r := Android.classify_battery level health charging temp voltage in
  (advisories r = [] <->
   Py.lower health = "good" /\ num_gt temp 40 = false
   /\ (level <? 15) && negb (String.eqb (Py.lower charging) "charging") = false)
  /\ (In "Critical: Battery overheating detected" (advisories r)
      <-> status r = Fail)
  /\ (In "Battery level is low, consider charging" (advisories r)
      <-> level < 15 /\ Py.lower charging <> "charging").
Proof.
  assert (H45 : num_gt temp 50 = true -> num_gt temp 40 = true).
  { unfold num_gt. rewrite !Z.ltb_lt. lia. }
  cbv zeta. unfold Android.classify_battery, Android.battery_verdict_after. simpl.
  unfold Android.rule_low_level, Android.rule_temp_critical,
    Android.rule_temp_high, Android.rule_health.
  destruct (String.eqb_spec (Py.lower health) "good") as [Hg | Hg];
    destruct (num_gt temp 40) eqn:H40; destruct (num_gt temp 50) eqn:H50;
    try (specialize (H45 eq_refl); discriminate);
    destruct (Z.ltb_spec level 15) as [Hl | Hl];
    destruct (String.eqb_spec (Py.lower charging) "charging") as [Hch | Hch];
    simpl; repeat split; intros;
    repeat match goal with
           | H : _ /\ _ |- _ => destruct H
           | H : _ \/ _ |- _ => destruct H
           | H : In _ _ |- _ => simpl in H
           end;
    try tauto; try congruence; try discriminate; try lia; auto.
Qed.

Lemma parse_battery_snoc a b :
  Py.contains LF b = false ->
  Android.parse_battery (a +:+ LF +:+ b)
  = Android.battery_line (Android.parse_battery a) b.
Proof.
  intros Hb. unfold Android.parse_battery.
  change (a +:+ LF +:+ b) with (a +:+ String NL b).
  now rewrite split_on_app, foldl_app, (split_on_one_line NL b Hb).
Qed.

(** Property X7.  The battery dump is read line by line into a dictionary: a further
    line [key: value] sets the trimmed key to the trimmed value, replacing
    what an earlier line gave it and leaving every other key alone; a
    further line without a colon changes nothing. *)
Theorem parse_battery_last_line_wins (a b : string) :
  Py.contains LF b = false ->
  (forall key value,
      Py.split_once ":" (Py.strip b) = Some (key, value) ->
      Android.parse_battery (a +:+ LF +:+ b) !! Py.strip key
      = Some (Py.strip value)
      /\ forall other,
           other <> Py.strip key ->
           Android.parse_battery (a +:+ LF +:+ b) !! other
           = Android.parse_battery a !! other)
  /\ (Py.split_once ":" (Py.strip b) = None ->
      Android.parse_battery (a +:+ LF +:+ b) = Android.parse_battery a).
Proof.
  intros Hb. rewrite (parse_battery_snoc a b Hb). unfold Android.battery_line.
  split.
  - intros key value ->. split.
    + apply lookup_insert_eq.
    + intros other Hne. now apply lookup_insert_ne.
  - now intros ->.
Qed.

(** Property X7 on a dump that states the level twice. *)
Lemma parse_battery_last_line_example :
  Android.parse_battery ("level: 10" +:+ LF +:+ "  level : 85 ") !! "level"
  = Some "85".
Proof.
  apply (proj1 (parse_battery_last_line_wins "level: 10" "  level : 85 " eq_refl)
           "level " " 85" eq_refl).
Defined.

(** ** The storage test *)

Lemma test_android_storage_df E h h1 out err h2 :
  returns (Android.check_adb_connection E) h true h1 ->
  returns (Android.run_adb_command E ["shell"; "df"; "/data"]) h1
    (out, err, 0) h2 ->
  returns (Android.test_android_storage E) h (storage_verdict out) h2.
Proof.
  intros Hc Hd. unfold returns, Android.test_android_storage, try_except.
  rewrite (bind_returns _ _ _ _ _ Hc). change (negb true) with false. cbv iota.
  rewrite (bind_returns _ _ _ _ _ Hd). cbv beta iota.
  change (negb (0 =? 0)) with false. cbv iota.
  rewrite (bind_returns (ret _) _ _ _ _ eq_refl). cbv beta iota.
  change (negb (0 =? 0)) with false. cbv iota.
  unfold bind, lift, storage_verdict.
  destruct (Android.find_storage (Py.split_on NL out)) as [e | [info |]];
    reflexivity.
Qed.

Lemma test_android_storage_diskstats E h h1 out err code h2 out2 err2 code2 h3 :
  returns (Android.check_adb_connection E) h true h1 ->
  returns (Android.run_adb_command E ["shell"; "df"; "/data"]) h1
    (out, err, code) h2 ->
  code <> 0 ->
  returns (Android.run_adb_command E ["shell"; "dumpsys"; "diskstats"]) h2
    (out2, err2, code2) h3 ->
  returns (Android.test_android_storage E) h
    (if code2 =? 0 then storage_verdict out2
     else error_result "storage.health" "storage"
            "Could not retrieve storage information" []) h3.
Proof.
  intros Hc Hd Hcode Hs.
  unfold returns, Android.test_android_storage, try_except.
  rewrite (bind_returns _ _ _ _ _ Hc). change (negb true) with false. cbv iota.
  rewrite (bind_returns _ _ _ _ _ Hd). cbv beta iota.
  rewrite (proj2 (Z.eqb_neq code 0) Hcode). simpl negb. cbv iota.
  rewrite (bind_returns _ _ _ _ _ Hs). cbv beta iota.
  destruct (code2 =? 0); simpl negb; cbv iota; [| reflexivity].
  unfold bind, lift, storage_verdict.
  destruct (Android.find_storage (Py.split_on NL out2)) as [e | [info |]];
    reflexivity.
Qed.

(** Property X8.  The storage test asks [dumpsys diskstats] only when [df /data]
    exits with a code other than 0; it then reads that output with the same
    parser, and when the second command fails too the outcome is the error
    "Could not retrieve storage information". *)
Theorem storage_falls_back_to_diskstats
    (E : Env) (h h1 h2 : History) (out err : string) (code : Z) :
  returns (Android.check_adb_connection E) h true h1 ->
  returns (Android.run_adb_command E ["shell"; "df"; "/data"]) h1
    (out, err, code) h2 ->
  (code = 0 ->
   returns (Android.test_android_storage E) h (storage_verdict out)
     (h ++ [adb_devices; adb_df]))
  /\ (code <> 0 ->
      forall out2 err2 code2 h3,
        returns (Android.run_adb_command E ["shell"; "dumpsys"; "diskstats"]) h2
          (out2, err2, code2) h3 ->
        returns (Android.test_android_storage E) h
          (if code2 =? 0 then storage_verdict out2
           else error_result "storage.health" "storage"
                  "Could not retrieve storage information" [])
          (h ++ [adb_devices; adb_df; adb_diskstats])).
Proof.
  intros Hc Hd.
  destruct (AndroidRun.check_returns E h) as [b Hb].
  destruct (returns_inj _ _ _ _ _ _ Hc Hb) as [<- ->].
  pose proof (run_adb_command_history _ _ _ _ _ Hd) as Hh2.
  split.
  - intros ->.
    assert (h2 = h ++ [adb_devices; adb_df]) as <-
      by (rewrite Hh2, <- !app_assoc; reflexivity).
    exact (test_android_storage_df _ _ _ _ _ _ Hc Hd).
  - intros Hcode out2 err2 code2 h3 Hs.
    pose proof (run_adb_command_history _ _ _ _ _ Hs) as Hh3.
    assert (h3 = h ++ [adb_devices; adb_df; adb_diskstats]) as <-
      by (rewrite Hh3, Hh2, <- !app_assoc; reflexivity).
    exact (test_android_storage_diskstats _ _ _ _ _ _ _ _ _ _ _ Hc Hd Hcode Hs).
Qed.

(** Property X8 on a phone whose [df] fails and whose [diskstats] fails as well. *)
Lemma storage_fallback_example :
  returns (Android.test_android_storage (phone_with_storage "" 1 "" 1)) []
    (error_result "storage.health" "storage"
       "Could not retrieve storage information" [])
    [adb_devices; adb_df; adb_diskstats].
Proof.
  apply (proj2 (storage_falls_back_to_diskstats (phone_with_storage "" 1 "" 1)
                  [] [adb_devices] [adb_devices; adb_df] "" "" 1
                  eq_refl eq_refl)
           ltac:(discriminate) "" "" 1 [adb_devices; adb_df; adb_diskstats]).
  reflexivity.
Defined.

Lemma skipped_unnamed line :
  Py.contains "/data" line = false -> Py.contains "userdata" line = false ->
  skipped line.
Proof. unfold skipped. cbn [Android.find_storage]. now intros -> ->. Qed.

Lemma skipped_short line :
  (length (Py.split line) < 4)%nat -> skipped line.
Proof.
  unfold skipped. cbn [Android.find_storage]. intros Hlen.
  destruct (_ || _); [| reflexivity].
  destruct (Py.split line) as [| p0 [| p1 [| p2 [| p3 ps]]]];
    try reflexivity; simpl in Hlen; lia.
Qed.

(** Property X9.  When no line of the output both names the data partition and has
    four fields, the storage test reports the error "Could not parse
    storage information". *)
Theorem storage_without_data_line_is_unparsed
    (E : Env) (h h1 h2 : History) (out err : string) :
  returns (Android.check_adb_connection E) h true h1 ->
  returns (Android.run_adb_command E ["shell"; "df"; "/data"]) h1
    (out, err, 0) h2 ->
  Forall (fun line =>
            (Py.contains "/data" line = false
             /\ Py.contains "userdata" line = false)
            \/ (length (Py.split line) < 4)%nat)
    (Py.split_on NL out) ->
  returns (Android.test_android_storage E) h
    (error_result "storage.health" "storage"
       "Could not parse storage information" []) h2.
Proof.
  intros Hc Hd Hlines.
  pose proof (test_android_storage_df _ _ _ _ _ _ Hc Hd) as Ht.
  unfold storage_verdict in Ht.
  rewrite <- (app_nil_r (Py.split_on NL out)), find_storage_skip_all in Ht;
    [exact Ht |].
  eapply Forall_impl; [exact Hlines |].
  intros line [[H1 H2] | Hlen];
    [now apply skipped_unnamed | now apply skipped_short].
Qed.

(** Property X9 on a phone whose [df] prints its header and a line for another
    partition. *)
Lemma storage_without_data_line_example :
  returns (Android.test_android_storage (phone_with_storage df_system 0 "" 1)) []
    (error_result "storage.health" "storage"
       "Could not parse storage information" [])
    [adb_devices; adb_df].
Proof.
  apply (storage_without_data_line_is_unparsed
           (phone_with_storage df_system 0 "" 1)
           [] [adb_devices] [adb_devices; adb_df] df_system "").
  - vm_compute. reflexivity.
  - vm_compute. reflexivity.
  - vm_compute. repeat constructor.
Defined.

(** *** Sizes that [isdigit] accepts and [int] does not *)

Lemma isdigit_not_space c : Py.isdigit_char c = true -> Py.int_space c = false.
Proof.
  unfold Py.isdigit_char, Py.isdecimal, Py.int_space. cbv zeta.
  destruct (N.leb_spec 48 (Py.ord c)), (N.leb_spec (Py.ord c) 57),
    (N.eqb_spec (Py.ord c) 178), (N.eqb_spec (Py.ord c) 179),
    (N.eqb_spec (Py.ord c) 185),
    (N.leb_spec 9 (Py.ord c)), (N.leb_spec (Py.ord c) 13),
    (N.eqb_spec (Py.ord c) 32), (N.eqb_spec (Py.ord c) 133),
    (N.eqb_spec (Py.ord c) 160); simpl; try reflexivity; try discriminate; lia.
Qed.

Lemma rstrip_isdigit s :
  Py.all_chars Py.isdigit_char s = true -> Py.rstrip_by Py.int_space s = s.
Proof.
  induction s as [| c s IH]; simpl; [reflexivity |].
  intros [Hc Hs]%andb_prop. rewrite (IH Hs).
  destruct s; [now rewrite (isdigit_not_space c Hc) | reflexivity].
Qed.

Lemma int_digits_superscript s acc b :
  Py.all_chars Py.isdigit_char s = true ->
  Py.all_chars Py.isdecimal s = false ->
  Py.int_digits acc b s = None.
Proof.
  revert acc b. induction s as [| c s IH]; intros acc b; simpl; [discriminate |].
  intros [Hc Hs]%andb_prop Hd.
  destruct (Py.isdecimal c) eqn:Hdc; simpl in Hd; [now apply IH |].
  destruct (Ascii.eqb_spec c "_") as [-> | _]; [discriminate | reflexivity].
Qed.

Lemma int_isdigit_body s :
  Py.isdigit s = true ->
  Py.int s
  = match Py.int_digits 0 false s with
    | Some n => inr n
    | None =>
        inl (Py.mkExn Py.ValueError
               ("invalid literal for int() with base 10: " +:+ Py.repr s))
    end.
Proof.
  destruct s as [| c s]; [discriminate |].
  unfold Py.isdigit. intros Hall. unfold Py.int.
  rewrite (rstrip_isdigit _ Hall).
  pose proof Hall as [Hc Hs]%andb_prop.
  cbn [Py.lstrip_by]. rewrite (isdigit_not_space c Hc).
  destruct (Ascii.eqb_spec c "-") as [-> | _]; [discriminate |].
  destruct (Ascii.eqb_spec c "+") as [-> | _]; [discriminate |].
  reflexivity.
Qed.

Lemma kb_field_superscript p :
  Py.isdigit p = true -> Py.all_chars Py.isdecimal p = false ->
  exists e, Android.kb_field p = inl e.
Proof.
  intros Hd Hs. unfold Android.kb_field. rewrite Hd, (int_isdigit_body _ Hd).
  destruct p as [| c p]; [discriminate |].
  rewrite int_digits_superscript by assumption. eauto.
Qed.

Lemma kb_field_raises p e :
  Android.kb_field p = inl e -> Py.exn_kind e = Py.ValueError.
Proof.
  unfold Android.kb_field, Py.int. repeat case_match; try discriminate;
    now intros [= <-].
Qed.

Lemma storage_row_raises p1 p2 p3 e :
  Android.storage_row p1 p2 p3 = inl e ->
  Py.exn_kind e = Py.ValueError
  /\ exists p, In p [p1; p2; p3] /\ Android.kb_field p = inl e.
Proof.
  unfold Android.storage_row.
  destruct (Android.kb_field p1) as [e1 | total] eqn:H1.
  { intros [= <-]. split; [eapply kb_field_raises; eauto |].
    exists p1. simpl; auto. }
  destruct (Android.kb_field p2) as [e2 | used] eqn:H2.
  { intros [= <-]. split; [eapply kb_field_raises; eauto |].
    exists p2. simpl; auto. }
  destruct (Android.kb_field p3) as [e3 | avail] eqn:H3.
  { intros [= <-]. split; [eapply kb_field_raises; eauto |].
    exists p3. simpl; auto. }
  unfold Py.truediv. change (1024 * 1024 =? 0) with false. cbv iota beta.
  destruct (Z.ltb_spec 0 total) as [Hpos | _]; [| discriminate].
  destruct (Z.eqb_spec total 0) as [-> | _]; [lia | discriminate].
Qed.

Lemma storage_row_returns p1 p2 p3 info :
  Android.storage_row p1 p2 p3 = inr info ->
  exists total used avail,
    Android.kb_field p1 = inr total /\ Android.kb_field p2 = inr used
    /\ Android.kb_field p3 = inr avail
    /\ info
       = Android.mkStorageInfo
           (Py.round1 (inject_Z total / inject_Z (1024 * 1024)))
           (Py.round1 (inject_Z used / inject_Z (1024 * 1024)))
           (Py.round1 (inject_Z avail / inject_Z (1024 * 1024)))
           (if 0 <? total
            then NFloat (Py.round1 (inject_Z used / inject_Z total * 100))
            else NInt 0).
Proof.
  unfold Android.storage_row.
  destruct (Android.kb_field p1) as [e1 | total]; [discriminate |].
  destruct (Android.kb_field p2) as [e2 | used]; [discriminate |].
  destruct (Android.kb_field p3) as [e3 | avail]; [discriminate |].
  unfold Py.truediv. change (1024 * 1024 =? 0) with false. cbv iota beta.
  destruct (0 <? total) eqn:Hlt.
  - destruct (Z.eqb_spec total 0) as [-> | _]; [discriminate |].
    intros [= <-]. exists total, used, avail. now rewrite Hlt.
  - intros [= <-]. exists total, used, avail. now rewrite Hlt.
Qed.

(** Property X10.  A line for the data partition one of whose three size fields
    passes [isdigit] without being readable by [int] (a superscript digit)
    is passed over, and the search goes on with the lines after it. *)
Theorem storage_passes_over_unreadable_size
    (line dev p1 p2 p3 p : string) (more rest : list string) :
  Py.contains "/data" line || Py.contains "userdata" line = true ->
  Py.split line = dev :: p1 :: p2 :: p3 :: more ->
  In p [p1; p2; p3] ->
  Py.isdigit p = true -> Py.all_chars Py.isdecimal p = false ->
  Android.find_storage (line :: rest) = Android.find_storage rest.
Proof.
  intros Hname Hsplit Hin Hd Hs.
  destruct (kb_field_superscript p Hd Hs) as [e He].
  cbn [Android.find_storage]. rewrite Hname, Hsplit.
  destruct (Android.storage_row p1 p2 p3) as [e' | info] eqn:Hrow.
  - destruct (storage_row_raises _ _ _ _ Hrow) as [-> _]. reflexivity.
  - apply storage_row_returns in Hrow
      as (total & used & avail & H1 & H2 & H3 & _).
    simpl in Hin. destruct Hin as [<- | [<- | [<- | []]]]; congruence.
Qed.

(** Property X10 on two lines: the first has the size 9 followed by a superscript
    two, the second is read. *)
Lemma storage_unreadable_size_example :
  Android.find_storage
    [("/dev/a 9" +:+ String (ascii_of_N 178) " 1 1 /data");
     "/dev/b 1000 500 500 /data"]
  = Android.find_storage ["/dev/b 1000 500 500 /data"].
Proof.
  apply (storage_passes_over_unreadable_size _ "/dev/a"
           ("9" +:+ String (ascii_of_N 178) "") "1" "1"
           ("9" +:+ String (ascii_of_N 178) "") ["/data"]);
    [reflexivity | reflexivity | simpl; auto | reflexivity | reflexivity].
Defined.

(** The search through the lines never raises: the handler of the loop
    catches every exception that a line can cause. *)
Lemma find_storage_returns lines :
  exists r, Android.find_storage lines = inr r.
Proof.
  induction lines as [| line lines IH]; cbn [Android.find_storage]; [eauto |].
  destruct (_ || _); [| exact IH].
  destruct (Py.split line) as [| p0 [| p1 [| p2 [| p3 ps]]]]; try exact IH.
  destruct (Android.storage_row p1 p2 p3) as [e | info] eqn:Hrow; [| eauto].
  destruct (storage_row_raises _ _ _ _ Hrow) as [-> _]. exact IH.
Qed.

(** Property X11.  The advisories of the storage verdict against its status: none
    up to 85 % and so none on "pass"; the critical advisory comes only with
    "fail" and after the cleanup advisory; "fail" without the critical
    advisory is the case of exactly 90.0 %. *)
Theorem storage_advisories_follow_status (info : Android.StorageInfo) :
  let r := Android.classify_storage info in
  let u := num_tenths (Android.usage_percentage info) in
  let cleanup := "Clear cache, photos, or unused apps" in
  let critical := "Critical: Free up space to avoid app crashes" in
  (advisories r = [] <-> u <= 850)
  /\ (status r = Pass -> advisories r = [])
  /\ (In critical (advisories r) ->
      status r = Fail /\ advisories r = [cleanup; critical])
  /\ (status r = Fail /\ ~ In critical (advisories r) <-> u = 900).
Proof.
  cbv zeta. unfold Android.classify_storage. cbn [advisories status].
  unfold Android.storage_advisories, Android.storage_status, num_gt, num_lt.
  set (u := num_tenths (Android.usage_percentage info)).
  destruct (Z.ltb_spec (10 * 85) u), (Z.ltb_spec (10 * 90) u),
    (Z.ltb_spec u (10 * 80)), (Z.ltb_spec u (10 * 90)); try lia; simpl;
    repeat split; intros; try lia; try discriminate; try tauto;
    repeat match goal with
           | H : _ /\ _ |- _ => destruct H
           | H : _ \/ _ |- _ => destruct H
           | H : False |- _ => destruct H
           end; try discriminate; try lia; try tauto.
  intros [Heq | []]. discriminate Heq.
Qed.

Lemma int_digits_nonneg s acc b n :
  0 <= acc -> Py.int_digits acc b s = Some n -> 0 <= n.
Proof.
  revert acc b. induction s as [| c s IH]; intros acc b Hacc; simpl.
  - destruct b; [now intros [= <-] | discriminate].
  - destruct (Py.isdecimal c) eqn:Hc.
    + apply IH. unfold Py.isdecimal in Hc. cbv zeta in Hc.
      apply andb_prop in Hc as [Hlo%N.leb_le _]. unfold Py.digit_val. lia.
    + destruct (_ && _); [now apply IH | discriminate].
Qed.

Lemma kb_field_nonneg p n : Android.kb_field p = inr n -> 0 <= n.
Proof.
  unfold Android.kb_field. destruct (Py.isdigit p) eqn:Hd.
  - rewrite (int_isdigit_body _ Hd).
    destruct (Py.int_digits 0 false p) as [m |] eqn:Hm; [| discriminate].
    intros [= <-]. eapply int_digits_nonneg; [| exact Hm]. lia.
  - now intros [= <-].
Qed.

Lemma round1_nonneg (x : Q) : (0 <= x)%Q -> 0 <= Py.round1 x.
Proof.
  intros Hx. unfold Py.round1, Py.round_half_even.
  assert (Hf : 0 <= Qfloor (x * 10)).
  { rewrite <- (Qfloor_Z 0). apply Qfloor_resp_le.
    change (inject_Z 0) with 0%Q. nra. }
  repeat case_match; lia.
Qed.

Lemma quotient_nonneg (a b : Z) :
  0 <= a -> 0 < b -> (0 <= inject_Z a / inject_Z b)%Q.
Proof.
  intros Ha Hb. apply Qle_shift_div_l.
  - change 0%Q with (inject_Z 0). rewrite <- Zlt_Qlt. exact Hb.
  - rewrite Qmult_0_l. change 0%Q with (inject_Z 0). now rewrite <- Zle_Qle.
Qed.

(** Property X12.  The storage figures come from the first usable line, whatever
    follows it, and none of them is negative. *)
Theorem storage_reads_first_usable_line
    (before rest : list string) (line dev p1 p2 p3 : string)
    (more : list string) (info : Android.StorageInfo) :
  Forall skipped before ->
  Py.contains "/data" line || Py.contains "userdata" line = true ->
  Py.split line = dev :: p1 :: p2 :: p3 :: more ->
  Android.storage_row p1 p2 p3 = inr info ->
  Android.find_storage (before ++ line :: rest) = inr (Some info)
  /\ 0 <= Android.total_gb info /\ 0 <= Android.used_gb info
  /\ 0 <= Android.available_gb info
  /\ 0 <= num_tenths (Android.usage_percentage info).
Proof.
  intros Hbefore Hname Hsplit Hrow. split.
  - rewrite find_storage_skip_all by assumption.
    cbn [Android.find_storage]. now rewrite Hname, Hsplit, Hrow.
  - apply storage_row_returns in Hrow
      as (total & used & avail & H1%kb_field_nonneg & H2%kb_field_nonneg
          & H3%kb_field_nonneg & ->).
    cbn [Android.total_gb Android.used_gb Android.available_gb
         Android.usage_percentage].
    repeat split; try (apply round1_nonneg, quotient_nonneg; lia).
    destruct (Z.ltb_spec 0 total) as [Hpos | _]; simpl; [| lia].
    apply round1_nonneg.
    pose proof (quotient_nonneg used total H2 Hpos). nra.
Qed.

(** Property X12 on a listing whose second data line would report a full disk. *)
Lemma storage_first_usable_line_example :
  Android.find_storage
    (["Filesystem 1K-blocks Used Available Mounted"]
     ++ "/dev/a 1000 500 500 /data" :: ["/dev/b 1000 1000 0 /data"])
  = inr (Some (Android.mkStorageInfo 0 0 0 (NFloat 500))).
Proof.
  apply (storage_reads_first_usable_line
           ["Filesystem 1K-blocks Used Available Mounted"]
           ["/dev/b 1000 1000 0 /data"]
           "/dev/a 1000 500 500 /data" "/dev/a" "1000" "500" "500" ["/data"]);
    [repeat constructor | reflexivity | reflexivity | reflexivity].
Defined.

(** ** The sensors test *)

Lemma prefix_app p s t :
  String.prefix p s = true -> String.prefix p (s +:+ t) = true.
Proof.
  revert s. induction p as [| c p IH]; intros [| d s]; simpl;
    try discriminate.
  - intros _. now destruct t.
  - reflexivity.
  - destruct (ascii_dec c d); [apply IH | discriminate].
Qed.

Lemma contains_cons sub c s :
  Py.contains sub (String c s)
  = String.prefix sub (String c s) || Py.contains sub s.
Proof. reflexivity. Qed.

Lemma contains_app_l sub s t :
  Py.contains sub s = true -> Py.contains sub (s +:+ t) = true.
Proof.
  induction s as [| c s IH].
  - destruct sub; [| discriminate]. intros _. now destruct t.
  - rewrite contains_cons. intros [H | H]%orb_prop.
    + pose proof (prefix_app _ _ t H) as Hp.
      change (String c s +:+ t) with (String c (s +:+ t)) in *.
      now rewrite contains_cons, Hp.
    + change (String c s +:+ t) with (String c (s +:+ t)).
      rewrite contains_cons, (IH H). apply orb_true_r.
Qed.

Lemma contains_app_r sub s t :
  Py.contains sub t = true -> Py.contains sub (s +:+ t) = true.
Proof.
  intros H. induction s as [| c s IH]; [exact H |].
  change (String c s +:+ t) with (String c (s +:+ t)).
  rewrite contains_cons, IH. apply orb_true_r.
Qed.

Lemma lower_app s t : Py.lower (s +:+ t) = Py.lower s +:+ Py.lower t.
Proof. induction s as [| c s IH]; simpl; [reflexivity | now rewrite IH]. Qed.

Lemma filter_length_mono {A} (p q : A -> bool) (l : list A) :
  (forall x, p x = true -> q x = true) ->
  (length (List.filter p l) <= length (List.filter q l))%nat.
Proof.
  intros Hpq. induction l as [| x l IH]; simpl; [lia |].
  destruct (p x) eqn:Hp; [rewrite (Hpq x Hp); simpl; lia |].
  destruct (q x); simpl; lia.
Qed.

Lemma filter_sublist {A} (p : A -> bool) (l : list A) :
  sublist (List.filter p l) l.
Proof.
  induction l as [| x l IH]; simpl; [constructor |].
  destruct (p x); now constructor.
Qed.

Lemma filter_length_le {A} (p : A -> bool) (l : list A) :
  (length (List.filter p l) <= length l)%nat.
Proof. induction l as [| x l IH]; simpl; [lia |]. destruct (p x); simpl; lia. Qed.

Lemma classify_sensors_status stdout :
  status (Android.classify_sensors stdout)
  = if 5 <=? sensor_count stdout then Pass
    else if 3 <=? sensor_count stdout then Warn else Fail.
Proof.
  unfold Android.classify_sensors, sensor_count. cbv zeta. cbn [status].
  repeat case_match; reflexivity.
Qed.

(** Property X13.  The sensors test counts each of the seven known names at most
    once, in the order of its list and whatever the letter case of the
    output; the count decides the status (5 and more pass, 3 and 4 warn),
    and the calibration advisory is given exactly with "fail". *)
Theorem sensors_verdict_by_count (stdout : string) :
  let r := Android.classify_sensors stdout in
  exists found : list string,
    metrics r = [("sensors_found", VList found);
                 ("sensor_count", VNum (NInt (Z.of_nat (length found))))]
    /\ sublist found Android.common_sensors
    /\ (forall sensor,
           In sensor found <->
           In sensor Android.common_sensors
           /\ Py.contains sensor (Py.lower stdout) = true)
    /\ (length found <= 7)%nat
    /\ (status r = Pass <-> (5 <= length found)%nat)
    /\ (status r = Warn <-> (3 <= length found < 5)%nat)
    /\ (status r = Fail <-> (length found < 3)%nat)
    /\ (advisories r = ["Check if device requires sensor calibration"]
        <-> status r = Fail)
    /\ (advisories r = [] <-> status r <> Fail).
Proof.
  cbv zeta.
  set (found := List.filter (fun sensor => Py.contains sensor (Py.lower stdout))
                  Android.common_sensors).
  exists found. split; [reflexivity |].
  split; [apply filter_sublist |].
  split.
  { intros sensor.
    exact (List.filter_In
             (fun sensor => Py.contains sensor (Py.lower stdout))
             sensor Android.common_sensors). }
  assert (Hlen : (length found <= 7)%nat)
    by (exact (filter_length_le _ Android.common_sensors)).
  split; [exact Hlen |].
  rewrite classify_sensors_status.
  unfold Android.classify_sensors. cbv zeta. cbn [advisories].
  unfold sensor_count. fold found.
  destruct (Z.leb_spec 5 (Z.of_nat (length found))),
    (Z.leb_spec 3 (Z.of_nat (length found))),
    (Z.ltb_spec (Z.of_nat (length found)) 3);
    repeat split; intros; try lia; try discriminate; try congruence.
Qed.

(** Property X14.  Text added to the sensor listing, before or after it, never
    lowers the count and never worsens the status. *)
Theorem sensors_verdict_improves_with_output (before out after : string) :
  sensor_count out <= sensor_count (before +:+ out +:+ after)
  /\ (severity (status (Android.classify_sensors (before +:+ out +:+ after)))
      <= severity (status (Android.classify_sensors out)))%nat.
Proof.
  assert (Hc : sensor_count out <= sensor_count (before +:+ out +:+ after)).
  { unfold sensor_count. apply inj_le, filter_length_mono.
    intros sensor H. rewrite !lower_app.
    now apply contains_app_r, contains_app_l. }
  split; [exact Hc |].
  rewrite !classify_sensors_status.
  destruct (Z.leb_spec 5 (sensor_count out)),
    (Z.leb_spec 3 (sensor_count out)),
    (Z.leb_spec 5 (sensor_count (before +:+ out +:+ after))),
    (Z.leb_spec 3 (sensor_count (before +:+ out +:+ after)));
    simpl; lia.
Qed.

(** ** The connectivity test *)

(** Property X15.  The connectivity verdict: "pass" exactly when Wi-Fi is connected
    or mobile data is up, "warn" when neither is and Wi-Fi is enabled,
    "fail" otherwise; the advisory is absent exactly on "pass", and
    [wifi_enabled] plays no part once a link is up. *)
Theorem connectivity_verdict_table (wifi_enabled wifi_connected mobile_data : bool) :
  let r := Android.classify_connectivity wifi_enabled wifi_connected mobile_data in
  (status r = Pass <-> wifi_connected = true \/ mobile_data = true)
  /\ (status r = Warn <->
      wifi_connected = false /\ mobile_data = false /\ wifi_enabled = true)
  /\ (status r = Fail <->
      wifi_connected = false /\ mobile_data = false /\ wifi_enabled = false)
  /\ (advisories r = [] <-> status r = Pass)
  /\ (status r = Pass ->
      explanation r
      = explanation (Android.classify_connectivity (negb wifi_enabled)
                       wifi_connected mobile_data)).
Proof.
  destruct wifi_enabled, wifi_connected, mobile_data; cbv zeta;
    repeat split; intros; simpl in *; try discriminate; try tauto;
    repeat match goal with
           | H : _ /\ _ |- _ => destruct H
           | H : _ \/ _ |- _ => destruct H
           end; try discriminate; auto.
Qed.

(** Property X16.  When [dumpsys wifi] fails the connectivity test reports the error
    "Could not retrieve network information" and does not ask for the
    telephony registry; when it succeeds, a failing telephony command is
    tolerated: mobile data counts as absent and the verdict comes from
    Wi-Fi alone. *)
Theorem connectivity_tolerates_telephony_failure
    (E : Env) (h h1 h2 : History) (out err : string) (code : Z) :
  returns (Android.check_adb_connection E) h true h1 ->
  returns (Android.run_adb_command E ["shell"; "dumpsys"; "wifi"]) h1
    (out, err, code) h2 ->
  (code <> 0 ->
   returns (Android.test_android_connectivity E) h
     (error_result "network.connectivity" "network"
        "Could not retrieve network information" [])
     (h ++ [adb_devices; adb_wifi]))
  /\ (code = 0 ->
      forall mobile_out mobile_err mobile_code h3,
        returns
          (Android.run_adb_command E ["shell"; "dumpsys"; "telephony.registry"])
          h2 (mobile_out, mobile_err, mobile_code) h3 ->
        let wifi_enabled :=
          Py.contains "Wi-Fi is enabled" out
          || Py.contains "mWifiEnabled: true" out in
        let wifi_connected :=
          Py.contains "CONNECTED/CONNECTED" out
          || Py.contains "state: CONNECTED" out in
        (mobile_code = 0 ->
         returns (Android.test_android_connectivity E) h
           (Android.classify_connectivity wifi_enabled wifi_connected
              (Py.contains "DATA_CONNECTED" mobile_out))
           (h ++ [adb_devices; adb_wifi; adb_telephony]))
        /\ (mobile_code <> 0 ->
            returns (Android.test_android_connectivity E) h
              (Android.classify_connectivity wifi_enabled wifi_connected false)
              (h ++ [adb_devices; adb_wifi; adb_telephony]))).
Proof.
  intros Hc Hw.
  destruct (AndroidRun.check_returns E h) as [b Hb].
  destruct (returns_inj _ _ _ _ _ _ Hc Hb) as [<- ->].
  pose proof (run_adb_command_history _ _ _ _ _ Hw) as Hh2.
  assert (Hh2' : h2 = h ++ [adb_devices; adb_wifi])
    by (rewrite Hh2, <- !app_assoc; reflexivity).
  split.
  - intros Hcode. rewrite <- Hh2'.
    unfold returns, Android.test_android_connectivity, try_except.
    rewrite (bind_returns _ _ _ _ _ Hc). change (negb true) with false.
    cbv iota. rewrite (bind_returns _ _ _ _ _ Hw). cbv beta iota.
    now rewrite (proj2 (Z.eqb_neq code 0) Hcode).
  - intros -> mobile_out mobile_err mobile_code h3 Hm. cbv zeta.
    pose proof (run_adb_command_history _ _ _ _ _ Hm) as Hh3.
    assert (h3 = h ++ [adb_devices; adb_wifi; adb_telephony]) as <-
      by (rewrite Hh3, Hh2, <- !app_assoc; reflexivity).
    assert (Ht : Android.test_android_connectivity E h
                 = (inr (Android.classify_connectivity
                           (Py.contains "Wi-Fi is enabled" out
                            || Py.contains "mWifiEnabled: true" out)
                           (Py.contains "CONNECTED/CONNECTED" out
                            || Py.contains "state: CONNECTED" out)
                           (if mobile_code =? 0
                            then Py.contains "DATA_CONNECTED" mobile_out
                            else false)), h3)).
    { unfold Android.test_android_connectivity, try_except.
      rewrite (bind_returns _ _ _ _ _ Hc). change (negb true) with false.
      cbv iota. rewrite (bind_returns _ _ _ _ _ Hw). cbv beta iota.
      change (negb (0 =? 0)) with false. cbv iota zeta.
      rewrite (bind_returns _ _ _ _ _ Hm). reflexivity. }
    split.
    + intros ->. exact Ht.
    + intros Hcode. unfold returns. rewrite Ht.
      now rewrite (proj2 (Z.eqb_neq mobile_code 0) Hcode).
Qed.

(** Property X16 on a phone with Wi-Fi enabled, not connected, whose telephony
    command fails although it prints DATA_CONNECTED. *)
Lemma connectivity_telephony_failure_example :
  returns
    (Android.test_android_connectivity
       (phone_with_network "Wi-Fi is enabled" 0 "DATA_CONNECTED" 1)) []
    (Android.classify_connectivity true false false)
    [adb_devices; adb_wifi; adb_telephony].
Proof.
  apply (proj2
           (proj2 (connectivity_tolerates_telephony_failure
                     (phone_with_network "Wi-Fi is enabled" 0 "DATA_CONNECTED" 1)
                     [] [adb_devices] [adb_devices; adb_wifi]
                     "Wi-Fi is enabled" "" 0 eq_refl eq_refl)
              eq_refl "DATA_CONNECTED" "" 1
              [adb_devices; adb_wifi; adb_telephony] eq_refl));
    discriminate.
Defined.

(** ** The runners *)

Ltac walk :=
  lazymatch goal with
  | |- wp (try_except _ _) _ _ _ => apply wp_try
  | |- wp (bind _ _) _ _ _ => apply wp_bind
  | |- wp (ret _) _ _ _ => apply wp_ret
  | |- wp (lift _) _ _ _ => apply wp_lift
  | |- wp (call _ _) _ _ _ => apply wp_call
  | |- wp (Android.check_adb_connection _) _ _ _ =>
      apply AndroidFacts.wp_check_adb_connection; intros ?
  | |- wp (Android.run_adb_command _ _) _ _ _ =>
      apply AndroidFacts.wp_run_adb_command; intros ? ? ?
  | |- wp (Windows.run_command _ _) _ _ _ =>
      apply WindowsFacts.wp_run_command; intros ? ? ?
  | |- wp (if ?b then _ else _) _ _ _ => destruct b
  | |- wp (match ?x with _ => _ end) _ _ _ => destruct x
  | |- match ?x with _ => _ end => destruct x
  end; cbv beta iota.

Lemma extends_with_refl p h : extends_with p h h.
Proof. exists []. now rewrite app_nil_r. Qed.

Lemma extends_with_trans p h1 h2 h3 :
  extends_with p h1 h2 -> extends_with p h2 h3 -> extends_with p h1 h3.
Proof.
  intros (a1 & -> & H1) (a2 & -> & H2). exists (a1 ++ a2).
  rewrite app_assoc, forallb_app, H1, H2. now split.
Qed.

Ltac extended :=
  repeat rewrite <- app_assoc;
  eexists; split; [reflexivity | reflexivity].

Lemma wp_for_each_extends {A B} (f : A -> M B) (p : Call -> bool) (l : list A) :
  (forall x h, wp (f x) (fun _ h' => extends_with p h h') (fun _ _ => False) h) ->
  forall h, wp (for_each f l) (fun _ h' => extends_with p h h')
              (fun _ _ => False) h.
Proof.
  intros Hf. induction l as [| x l IH]; intros h; simpl.
  - apply wp_ret, extends_with_refl.
  - apply wp_bind. eapply wp_conseq; [apply Hf | | tauto].
    intros y h1 H1. apply wp_bind. eapply wp_conseq; [apply IH | | tauto].
    intros ys h2 H2. apply wp_ret. cbv beta in H1, H2.
    exact (extends_with_trans _ _ _ _ H1 H2).
Qed.

Lemma android_run_one_extends E id h :
  wp (Android.run_one E id) (fun _ h' => extends_with is_adb h h')
    (fun _ _ => False) h.
Proof.
  unfold Android.run_one.
  destruct (Android.test_functions E !! id) as [f |] eqn:Hf;
    [| apply wp_ret, extends_with_refl].
  apply wp_try.
  apply AndroidRun.android_catalog_inv in Hf
    as [[-> ->] | [[-> ->] | [[-> ->] | [-> ->]]]].
  - unfold Android.test_android_battery. repeat walk; extended.
  - unfold Android.test_android_storage. repeat walk; extended.
  - unfold Android.test_android_sensors. repeat walk; extended.
  - unfold Android.test_android_connectivity. repeat walk; extended.
Qed.

Lemma windows_run_one_extends E id h :
  wp (Windows.run_one E id) (fun _ h' => extends_with not_adb h h')
    (fun _ _ => False) h.
Proof.
  unfold Windows.run_one.
  destruct (Windows.test_functions E !! id) as [f |] eqn:Hf;
    [| apply wp_ret, extends_with_refl].
  apply wp_try.
  apply WindowsFacts.windows_catalog_inv in Hf
    as [[-> ->] | [[-> ->] | [[-> ->] | [-> ->]]]].
  - unfold Windows.test_battery_health. repeat walk; extended.
  - unfold Windows.test_storage_health. repeat walk; extended.
  - unfold Windows.test_cpu_temperature. repeat walk; extended.
  - unfold Windows.test_memory. repeat walk; extended.
Qed.

(** Property X17.  The two agents keep to their own tools: an Android run starts
    with [adb devices] and calls nothing but [adb]; a Windows run never
    calls [adb]. *)
Theorem agents_keep_to_their_tools (E : Env) (tests : list string) (h : History) :
  (exists rs added,
      returns (Android.run_android_diagnostics E tests) h rs
        (h ++ adb_devices :: added)
      /\ forallb is_adb added = true)
  /\ (exists rs added,
         returns (Windows.run_windows_diagnostics E tests) h rs (h ++ added)
         /\ forallb not_adb added = true).
Proof.
  split.
  - destruct (AndroidRun.check_returns E h) as [[] Hc].
    + destruct (wp_returns _ _ _
                  (wp_for_each_extends (Android.run_one E) is_adb tests
                     (android_run_one_extends E) (h ++ [adb_devices])))
        as (rs & h' & Hr & added & -> & Hadded).
      exists rs, added. split; [| exact Hadded].
      unfold returns. rewrite (AndroidRun.run_reachable E tests _ _ Hc).
      rewrite <- app_assoc in Hr. exact Hr.
    + exists (map Android.unreachable_result tests), []. split; [| reflexivity].
      now apply AndroidRun.run_unreachable.
  - destruct (wp_returns _ _ _
                (wp_for_each_extends (Windows.run_one E) not_adb tests
                   (windows_run_one_extends E) h))
      as (rs & h' & Hr & added & -> & Hadded).
    now exists rs, added.
Qed.

(** Property X18.  The runners' handler "Test execution failed" is never reached:
    dispatching an id of the catalog gives exactly what its test function
    gives, on both platforms. *)
Theorem dispatch_is_the_test_function (E : Env) (id : string) (h : History) :
  (forall f : M TestResult,
      Android.test_functions E !! id = Some f -> Android.run_one E id h = f h)
  /\ (forall f : M TestResult,
         Windows.test_functions E !! id = Some f -> Windows.run_one E id h = f h).
Proof.
  split; intros f Hf.
  - unfold Android.run_one. rewrite Hf.
    assert (Hin : In f (android_tests E)).
    { apply AndroidRun.android_catalog_inv in Hf
        as [[_ ->] | [[_ ->] | [[_ ->] | [_ ->]]]]; simpl; auto. }
    destruct (android_test_probes_once E f h Hin) as (r & h' & Hr & _).
    unfold try_except. now rewrite Hr.
  - unfold Windows.run_one. rewrite Hf.
    assert (Hin : In f (windows_tests E)).
    { apply WindowsFacts.windows_catalog_inv in Hf
        as [[_ ->] | [[_ ->] | [[_ ->] | [_ ->]]]]; simpl; auto. }
    destruct (windows_test_result E f h Hin) as (r & h' & Hr & _).
    unfold try_except. now rewrite Hr.
Qed.

(** ** The Windows tests *)

(** Property X19.  The error paths of the Windows battery test: a temporary
    directory that cannot be made gives "Battery test failed: ..." before
    any command runs; a failing [powercfg] gives "Could not generate battery
    report" and PowerShell is not run; a failing PowerShell, or an answer
    without a charge field, gives "Could not read battery information". *)
Theorem windows_battery_error_paths (E : Env) (h : History) :
  (forall e, temp_dir E h = inl e ->
     returns (Windows.test_battery_health E) h
       (error_result "battery.health" "power"
          ("Battery test failed: " +:+ Py.exn_str e) [])
       (h ++ [CallTempDir]))
  /\ (forall dir out err code h2,
        temp_dir E h = inr dir ->
        returns (Windows.run_command E (Windows.powercfg_cmd dir))
          (h ++ [CallTempDir]) (out, err, code) h2 ->
        (code <> 0 ->
         returns (Windows.test_battery_health E) h
           (error_result "battery.health" "power"
              "Could not generate battery report"
              ["Battery diagnostic tools may not be available"])
           (h ++ [CallTempDir; run_powercfg dir]))
        /\ (code = 0 ->
            forall ps_output ps_error ps_code h3,
              returns (Windows.run_command E Windows.ps_cmd) h2
                (ps_output, ps_error, ps_code) h3 ->
              ps_code <> 0
              \/ Py.contains "EstimatedChargeRemaining" ps_output = false ->
              returns (Windows.test_battery_health E) h
                (error_result "battery.health" "power"
                   "Could not read battery information"
                   ["No battery detected or battery information unavailable"])
                (h ++ [CallTempDir; run_powercfg dir; run_powershell]))).
Proof.
  split.
  - intros e He. unfold returns, Windows.test_battery_health, try_except, bind,
      call, lift. now rewrite He.
  - intros dir out err code h2 Hdir Hp.
    assert (Hh2 : h2 = h ++ [CallTempDir; run_powercfg dir]).
    { unfold returns, Windows.run_command, call in Hp.
      injection Hp as _ <-. now rewrite <- app_assoc. }
    assert (Hstart : forall k : string * string * Z -> M TestResult,
               bind (call CallTempDir (temp_dir E))
                 (fun made => bind (lift made)
                    (fun temp_dir =>
                       bind (Windows.run_command E (Windows.powercfg_cmd temp_dir)) k))
                 h
               = k (out, err, code) h2).
    { intros k. unfold bind at 1. unfold call at 1. cbv beta iota.
      rewrite Hdir. unfold bind at 1. unfold lift at 1. cbv beta iota.
      now rewrite (bind_returns _ _ _ _ _ Hp). }
    split.
    + intros Hcode. unfold returns, Windows.test_battery_health, try_except.
      rewrite Hstart. rewrite (proj2 (Z.eqb_neq code 0) Hcode). simpl negb.
      cbv iota. unfold ret. now rewrite Hh2.
    + intros -> ps_output ps_error ps_code h3 Hps Hbad.
      assert (Hh3 : h3 = h ++ [CallTempDir; run_powercfg dir; run_powershell]).
      { unfold returns, Windows.run_command, call in Hps.
        injection Hps as _ <-. rewrite Hh2, <- app_assoc. reflexivity. }
      unfold returns, Windows.test_battery_health, try_except.
      rewrite Hstart. change (negb (0 =? 0)) with false. cbv iota.
      rewrite (bind_returns _ _ _ _ _ Hps). cbv beta iota.
      assert ((ps_code =? 0)
              && Py.contains "EstimatedChargeRemaining" ps_output = false) as ->.
      { destruct Hbad as [Hc%Z.eqb_neq | Hc]; rewrite Hc;
          [reflexivity | apply andb_false_r]. }
      unfold ret. now rewrite Hh3.
Qed.

(** Property X19 on a laptop whose [powercfg] fails. *)
Lemma windows_battery_without_powercfg_example :
  returns (Windows.test_battery_health laptop_without_powercfg) []
    (error_result "battery.health" "power"
       "Could not generate battery report"
       ["Battery diagnostic tools may not be available"])
    [CallTempDir; run_powercfg "/tmp/tmpdiag"].
Proof.
  apply (proj1 (proj2 (windows_battery_error_paths laptop_without_powercfg [])
                  "/tmp/tmpdiag" "" "Unable to perform operation." 1
                  [CallTempDir; run_powercfg "/tmp/tmpdiag"]
                  eq_refl eq_refl)).
  discriminate.
Defined.

(** What the storage test makes of the answer of [psutil.disk_usage]. *)
Lemma test_storage_health_probe E h out err h1 :
  returns (Windows.run_command E Windows.wmic_cmd) h (out, err, 0) h1 ->
  out <> "" ->
  returns (Windows.test_storage_health E) h
    (match disk_usage E h1 "C:\" with
     | inr du =>
         match Windows.storage_report du with
         | inr r => r
         | inl e =>
             error_result "storage.health" "storage"
               ("Storage test failed: " +:+ Py.exn_str e) []
         end
     | inl e =>
         error_result "storage.health" "storage"
           ("Storage test failed: " +:+ Py.exn_str e) []
     end)
    (h ++ [run_wmic; probe_disk]).
Proof.
  intros Hw Hout.
  assert (Hh1 : h1 = h ++ [run_wmic]).
  { unfold returns, Windows.run_command, call in Hw. now injection Hw as _ <-. }
  unfold returns, Windows.test_storage_health, try_except.
  rewrite (bind_returns _ _ _ _ _ Hw). cbv beta iota.
  rewrite (proj2 (String.eqb_neq out "") Hout). change (0 =? 0) with true.
  cbn [andb negb]. cbv iota. unfold bind, call, lift.
  assert (Hh : h1 ++ [CallDiskUsage "C:\"] = h ++ [run_wmic; probe_disk])
    by (rewrite Hh1, <- app_assoc; reflexivity).
  rewrite Hh.
  destruct (disk_usage E h1 "C:\") as [e | du]; [reflexivity |].
  destruct (Windows.storage_report du) as [e | r]; reflexivity.
Qed.

(** Property X20.  The Windows storage test asks for the disk usage only after
    [wmic] has exited with 0 and printed something; otherwise it reports
    "Could not retrieve storage information".  What [wmic] printed plays no
    further part: two runs that differ only in that text give the same
    outcome. *)
Theorem windows_storage_ignores_wmic_listing
    (E : Env) (h h1 : History) (out err : string) (code : Z) :
  returns (Windows.run_command E Windows.wmic_cmd) h (out, err, code) h1 ->
  (code <> 0 \/ out = "" ->
   returns (Windows.test_storage_health E) h
     (error_result "storage.health" "storage"
        "Could not retrieve storage information" [])
     (h ++ [run_wmic]))
  /\ (code = 0 -> out <> "" ->
      forall E' out' err',
        out' <> "" ->
        returns (Windows.run_command E' Windows.wmic_cmd) h (out', err', 0) h1 ->
        disk_usage E' h1 "C:\" = disk_usage E h1 "C:\" ->
        exists r,
          returns (Windows.test_storage_health E) h r (h ++ [run_wmic; probe_disk])
          /\ returns (Windows.test_storage_health E') h r
               (h ++ [run_wmic; probe_disk])).
Proof.
  intros Hw. split.
  - intros Hbad.
    assert (Hh1 : h1 = h ++ [run_wmic]).
    { unfold returns, Windows.run_command, call in Hw. now injection Hw as _ <-. }
    unfold returns, Windows.test_storage_health, try_except.
    rewrite (bind_returns _ _ _ _ _ Hw). cbv beta iota.
    assert ((code =? 0) && negb (String.eqb out "") = false) as ->.
    { destruct Hbad as [Hc%Z.eqb_neq | ->]; [now rewrite Hc | apply andb_false_r]. }
    unfold ret. now rewrite Hh1.
  - intros -> Hout E' out' err' Hout' Hw' Hdu.
    eexists. split; [exact (test_storage_health_probe _ _ _ _ _ Hw Hout) |].
    rewrite <- Hdu. exact (test_storage_health_probe _ _ _ _ _ Hw' Hout').
Qed.

(** Property X20 on a laptop whose [wmic] prints nothing. *)
Lemma windows_storage_without_wmic_example :
  returns (Windows.test_storage_health laptop_without_powercfg) []
    (error_result "storage.health" "storage"
       "Could not retrieve storage information" [])
    [run_wmic].
Proof.
  apply (proj1 (windows_storage_ignores_wmic_listing laptop_without_powercfg
                  [] [run_wmic] "" "not available" 1 eq_refl)).
  left. discriminate.
Defined.

(** Property X21.  A drive that reports a total size of 0 makes the Windows storage
    test divide by zero: the outcome is the error "Storage test failed:
    division by zero". *)
Theorem windows_storage_zero_total_is_an_error
    (E : Env) (h h1 : History) (out err : string) (du : DiskUsage) :
  returns (Windows.run_command E Windows.wmic_cmd) h (out, err, 0) h1 ->
  out <> "" ->
  disk_usage E h1 "C:\" = inr du ->
  du_total du = 0 ->
  returns (Windows.test_storage_health E) h
    (error_result "storage.health" "storage"
       "Storage test failed: division by zero" [])
    (h ++ [run_wmic; probe_disk]).
Proof.
  intros Hw Hout Hdu Htotal.
  pose proof (test_storage_health_probe _ _ _ _ _ Hw Hout) as Ht.
  rewrite Hdu in Ht.
  assert (Hr : Windows.storage_report du
               = inl (Py.mkExn Py.ZeroDivisionError "division by zero")).
  { unfold Windows.storage_report, Py.truediv. rewrite Htotal.
    change (Windows.GIB =? 0) with false. reflexivity. }
  now rewrite Hr in Ht.
Qed.

(** Property X21 on a laptop whose drive reports no capacity. *)
Lemma windows_storage_zero_total_example :
  returns (Windows.test_storage_health (laptop_with_disk (mkDiskUsage 0 0 0))) []
    (error_result "storage.health" "storage"
       "Storage test failed: division by zero" [])
    [run_wmic; probe_disk].
Proof.
  apply (windows_storage_zero_total_is_an_error
           (laptop_with_disk (mkDiskUsage 0 0 0)) [] [run_wmic]
           "Node,Model,Size,Status" "" (mkDiskUsage 0 0 0));
    [reflexivity | discriminate | reflexivity | reflexivity].
Defined.

(** Property X22.  The CPU verdict: "pass" below 80 %, "warn" from 80 and below 95,
    "fail" from 95.  No advisory up to 90 %, so a "warn" above 90 carries
    one; the critical advisory comes only above 95, so "fail" at exactly
    95.0 lacks it.  The frequency is reported exactly when the machine
    gives one. *)
Theorem cpu_verdict_bands (p : Z) (cores : option Z) (freq : option Q) :
  let r := Windows.cpu_report p cores freq in
  let reduce := "Close unnecessary programs to reduce CPU load" in
  let critical := "Critical: Check for malware or system issues" in
  (status r = Pass <-> p < 800)
  /\ (status r = Warn <-> 800 <= p < 950)
  /\ (status r = Fail <-> 950 <= p)
  /\ (advisories r = [] <-> p <= 900)
  /\ (advisories r = [reduce] <-> 900 < p <= 950)
  /\ (advisories r = [reduce; critical] <-> 950 < p)
  /\ (metric "cpu_frequency_mhz" (metrics r) = None <-> freq = None)
  /\ metric "cpu_usage_percentage" (metrics r) = Some (VNum (NFloat p)).
Proof.
  cbv zeta. unfold Windows.cpu_report. cbv zeta.
  cbn [status advisories metrics]. unfold num_lt, num_gt. cbn [num_tenths].
  destruct (Z.ltb_spec p (10 * 80)), (Z.ltb_spec p (10 * 95)),
    (Z.ltb_spec (10 * 90) p), (Z.ltb_spec (10 * 95) p);
    try lia; destruct freq; simpl;
    repeat split; intros; try lia; try discriminate; try reflexivity.
Qed.

(** Property X23.  The CPU test asks for the load, the number of cores and the
    frequency in this order, and stops at the first probe that raises: the
    outcome is then the error "CPU test failed: ..." and the later probes
    are not made. *)
Theorem cpu_probes_stop_at_first_failure (E : Env) (h : History) :
  let failed e :=
    error_result "cpu.temperature" "performance"
      ("CPU test failed: " +:+ Py.exn_str e) [] in
  (forall e, cpu_percent E h = inl e ->
     returns (Windows.test_cpu_temperature E) h (failed e) (h ++ [CallCpuPercent]))
  /\ (forall p,
        cpu_percent E h = inr p ->
        (forall e, cpu_count E (h ++ [CallCpuPercent]) = inl e ->
           returns (Windows.test_cpu_temperature E) h (failed e)
             (h ++ [CallCpuPercent; CallCpuCount]))
        /\ (forall cores,
              cpu_count E (h ++ [CallCpuPercent]) = inr cores ->
              (forall e,
                  cpu_freq E (h ++ [CallCpuPercent; CallCpuCount]) = inl e ->
                  returns (Windows.test_cpu_temperature E) h (failed e)
                    (h ++ [CallCpuPercent; CallCpuCount; CallCpuFreq]))
              /\ (forall freq,
                     cpu_freq E (h ++ [CallCpuPercent; CallCpuCount]) = inr freq ->
                     returns (Windows.test_cpu_temperature E) h
                       (Windows.cpu_report p cores freq)
                       (h ++ [CallCpuPercent; CallCpuCount; CallCpuFreq])))).
Proof.
  cbv zeta.
  unfold returns, Windows.test_cpu_temperature, try_except, bind, call, lift, ret.
  split; [intros e ->; reflexivity |].
  intros p ->. split; [intros e ->; now rewrite <- app_assoc |].
  intros cores ->. rewrite <- !app_assoc. simpl app.
  split; [intros e -> | intros freq ->]; reflexivity.
Qed.

(** Property X23 on a laptop whose core count cannot be read. *)
Lemma cpu_without_core_count_example :
  returns (Windows.test_cpu_temperature laptop_without_cpu_count) []
    (error_result "cpu.temperature" "performance"
       "CPU test failed: not supported" [])
    [CallCpuPercent; CallCpuCount].
Proof.
  exact (proj1 (proj2 (cpu_probes_stop_at_first_failure
                         laptop_without_cpu_count []) 125 eq_refl)
           (Py.mkExn Py.OtherException "not supported") eq_refl).
Defined.

Lemma memory_report_returns memory :
  exists r,
    Windows.memory_report memory = inr r
    /\ status r
       = (if vm_percent memory <? 800 then Pass
          else if vm_percent memory <? 900 then Warn else Fail)
    /\ metric "usage_percentage" (metrics r)
       = Some (VNum (NFloat (vm_percent memory)))
    /\ advisories r
       = (if 850 <? vm_percent memory
          then ["Close unnecessary programs to free up memory"] else [])
         ++ (if 900 <? vm_percent memory
             then ["Critical: System performance may be severely impacted"]
             else []).
Proof.
  unfold Windows.memory_report, Py.truediv.
  change (Windows.GIB =? 0) with false. cbv iota beta zeta.
  eexists. split; [reflexivity |]. repeat split.
Qed.

(** Property X24.  The memory test makes one probe and never fails on its own
    arithmetic: its outcome is an error exactly when the probe raises.
    Otherwise the usage of the probe is reported as it is and decides the
    status: "pass" below 80 %, "warn" below 90 %, "fail" from 90 %. *)
Theorem memory_errors_only_when_probe_raises (E : Env) (h : History) :
  exists r,
    returns (Windows.test_memory E) h r (h ++ [CallVirtualMemory])
    /\ (status r = Error <-> exists e, virtual_memory E h = inl e)
    /\ (forall e, virtual_memory E h = inl e ->
          explanation r = "Memory test failed: " +:+ Py.exn_str e)
    /\ (forall memory,
          virtual_memory E h = inr memory ->
          metric "usage_percentage" (metrics r)
          = Some (VNum (NFloat (vm_percent memory)))
          /\ (status r = Pass <-> vm_percent memory < 800)
          /\ (status r = Warn <-> 800 <= vm_percent memory < 900)
          /\ (status r = Fail <-> 900 <= vm_percent memory)
          /\ (advisories r = [] <-> vm_percent memory <= 850)).
Proof.
  unfold returns, Windows.test_memory, try_except, bind, call, lift, ret.
  destruct (virtual_memory E h) as [e | memory] eqn:Hm.
  - eexists. split; [reflexivity |]. cbn [status explanation error_result].
    split; [split; eauto |]. split; [now intros e' [= <-] | discriminate].
  - destruct (memory_report_returns memory) as (r & -> & Hs & Hu & Ha).
    exists r. split; [reflexivity |].
    assert (Hne : status r <> Error)
      by (rewrite Hs; repeat case_match; discriminate).
    split; [split; [tauto | intros [e [=]]] |].
    split; [discriminate |].
    intros memory' [= <-]. split; [exact Hu |].
    rewrite Hs, Ha.
    destruct (Z.ltb_spec (vm_percent memory) 800),
      (Z.ltb_spec (vm_percent memory) 900),
      (Z.ltb_spec 850 (vm_percent memory)),
      (Z.ltb_spec 900 (vm_percent memory)); simpl;
      repeat split; intros; try lia; try discriminate.
Qed.

(** ** The summary of a run *)

Lemma summarize_returns results :
  exists score,
    Backend.summarize results
    = inr (Backend.mkSummary (Z.of_nat (length results))
             (Backend.count_status "pass" results)
             (Backend.count_status "warn" results)
             (Backend.count_status "fail" results)
             (Backend.count_status "error" results) score
             (if (Backend.count_status "fail" results =? 0)
                 && (Backend.count_status "error" results =? 0)
              then "healthy" else "issues_detected"))
    /\ match results with
       | [] => score = NInt 0
       | _ =>
           score
           = NFloat (Py.round1
                       (inject_Z (Backend.count_status "pass" results)
                        / inject_Z (Z.of_nat (length results)) * 100))
       end.
Proof.
  destruct results as [| r results]; [eexists; split; reflexivity |].
  unfold Backend.summarize, Py.truediv.
  destruct (Z.eqb_spec (Z.of_nat (length (r :: results))) 0) as [H0 | _];
    [simpl in H0; lia |].
  eexists. split; reflexivity.
Qed.

Lemma count_status_cons s r results :
  Backend.count_status s (r :: results)
  = (if String.eqb (status_str (status r)) s then 1 else 0)
    + Backend.count_status s results.
Proof.
  unfold Backend.count_status. cbn [List.filter].
  destruct (String.eqb (status_str (status r)) s); cbn [length]; lia.
Qed.

Lemma count_status_total results :
  Backend.count_status "pass" results + Backend.count_status "warn" results
  + Backend.count_status "fail" results + Backend.count_status "error" results
  = Z.of_nat (length results).
Proof.
  induction results as [| r results IH]; [reflexivity |].
  rewrite !count_status_cons. cbn [length].
  destruct (status r); cbn [status_str]; simpl String.eqb; lia.
Qed.

Lemma count_status_zero (st : Status) results :
  Backend.count_status (status_str st) results = 0
  <-> Forall (fun r => status r <> st) results.
Proof.
  induction results as [| r results IH]; [split; [constructor | reflexivity] |].
  rewrite count_status_cons.
  pose proof (count_status_bounds (status_str st) results) as Hb.
  split.
  - intros H.
    destruct (String.eqb (status_str (status r)) (status_str st)) eqn:Heq;
      [lia |].
    constructor; [| apply IH; lia].
    intros Hst. rewrite Hst, String.eqb_refl in Heq. discriminate.
  - intros [Hr Hrest]%Forall_cons.
    assert (String.eqb (status_str (status r)) (status_str st) = false) as ->.
    { apply String.eqb_neq. intros Heq. apply Hr.
      destruct (status r), st; simpl in Heq; congruence. }
    apply IH in Hrest. lia.
Qed.

(** Property X25.  The four counts of the summary add up to the number of outcomes,
    and the overall status is "healthy" exactly when every outcome is a
    pass or a warning: warnings do not make a run unhealthy. *)
Theorem summary_counts_partition_the_outcomes (results : list TestResult) :
  exists s,
    Backend.summarize results = inr s
    /\ Backend.passed s + Backend.warnings s + Backend.failed s
       + Backend.errors s = Backend.total_tests s
    /\ 0 <= Backend.passed s /\ 0 <= Backend.warnings s
    /\ 0 <= Backend.failed s /\ 0 <= Backend.errors s
    /\ (Backend.overall_status s = "healthy"
        <-> Forall (fun r => status r = Pass \/ status r = Warn) results)
    /\ (Backend.overall_status s = "issues_detected"
        <-> ~ Forall (fun r => status r = Pass \/ status r = Warn) results).
Proof.
  destruct (summarize_returns results) as (score & -> & _).
  eexists. split; [reflexivity |].
  cbn [Backend.passed Backend.warnings Backend.failed Backend.errors
       Backend.total_tests Backend.overall_status].
  split; [apply count_status_total |].
  repeat (split; [apply count_status_bounds |]).
  pose proof (count_status_zero Fail results) as Hf.
  pose proof (count_status_zero Error results) as He.
  cbn [status_str] in Hf, He.
  assert (Hhealthy :
            Backend.count_status "fail" results = 0
            /\ Backend.count_status "error" results = 0
            <-> Forall (fun r => status r = Pass \/ status r = Warn) results).
  { rewrite Hf, He, <- Forall_and. apply Forall_iff. intros r.
    destruct (status r); split; intros; try tauto; try (split; discriminate);
      intuition congruence. }
  rewrite <- Hhealthy.
  destruct (Z.eqb_spec (Backend.count_status "fail" results) 0),
    (Z.eqb_spec (Backend.count_status "error" results) 0); simpl;
    repeat split; intros; try tauto; try discriminate;
    repeat match goal with
           | H : _ /\ _ |- _ => destruct H
           | H : ~ _ |- _ => exfalso; apply H; tauto
           end; try contradiction; try tauto.
Qed.

(** Property X26.  The health score counts passes only.  A run without any pass has
    the score 0.0 even when it is "healthy" (all warnings); a run of passes
    alone has the score 100.0. *)
Theorem health_score_counts_passes_only (results : list TestResult) :
  results <> [] ->
  exists s,
    Backend.summarize results = inr s
    /\ (Forall (fun r => status r <> Pass) results ->
        Backend.health_score s = NFloat 0)
    /\ (Forall (fun r => status r = Warn) results ->
        Backend.health_score s = NFloat 0
        /\ Backend.overall_status s = "healthy")
    /\ (Forall (fun r => status r = Pass) results ->
        Backend.health_score s = NFloat 1000).
Proof.
  intros Hne.
  destruct (summarize_returns results) as (score & -> & Hscore).
  eexists. split; [reflexivity |].
  cbn [Backend.health_score Backend.overall_status].
  destruct results as [| r0 results0]; [congruence |].
  set (results := r0 :: results0) in *.
  assert (Hlen : 0 < Z.of_nat (length results)) by (simpl; lia).
  assert (Hzero : Backend.count_status "pass" results = 0 -> score = NFloat 0).
  { intros H0. rewrite Hscore, H0. reflexivity. }
  split; [| split].
  - intros H. apply Hzero, (count_status_zero Pass). exact H.
  - intros H. split.
    + apply Hzero, (count_status_zero Pass).
      eapply Forall_impl; [exact H |]. intros r ->. discriminate.
    + assert (Backend.count_status "fail" results = 0) as ->.
      { apply (count_status_zero Fail).
        eapply Forall_impl; [exact H |]. intros r ->. discriminate. }
      assert (Backend.count_status "error" results = 0) as ->.
      { apply (count_status_zero Error).
        eapply Forall_impl; [exact H |]. intros r ->. discriminate. }
      reflexivity.
  - intros H.
    assert (Hall : Backend.count_status "pass" results = Z.of_nat (length results)).
    { pose proof (count_status_total results) as Ht.
      assert (Backend.count_status "warn" results = 0) as Hw.
      { apply (count_status_zero Warn).
        eapply Forall_impl; [exact H |]. intros r ->. discriminate. }
      assert (Backend.count_status "fail" results = 0) as Hf.
      { apply (count_status_zero Fail).
        eapply Forall_impl; [exact H |]. intros r ->. discriminate. }
      assert (Backend.count_status "error" results = 0) as He.
      { apply (count_status_zero Error).
        eapply Forall_impl; [exact H |]. intros r ->. discriminate. }
      lia. }
    rewrite Hscore, Hall. f_equal. unfold Py.round1.
    assert (Hq : (inject_Z (Z.of_nat (length results))
                  / inject_Z (Z.of_nat (length results)) * 100 * 10
                  == inject_Z 1000)%Q).
    { assert (Hnz : ~ (inject_Z (Z.of_nat (length results)) == 0)%Q).
      { change 0%Q with (inject_Z 0). rewrite inject_Z_injective. lia. }
      change (inject_Z 1000) with 1000%Q. field. exact Hnz. }
    pose proof (PyFacts.round_half_even_between _ 1000 1000
                  (proj2 (Qle_lteq _ _) (or_intror (Qeq_sym _ _ Hq)))
                  (proj2 (Qle_lteq _ _) (or_intror Hq))).
    lia.
Qed.

(** Property X26 on two warnings. *)
Lemma health_score_of_warnings_example :
  exists s,
    Backend.summarize
      [Android.classify_connectivity true false false;
       Android.classify_connectivity true false false] = inr s
    /\ Backend.health_score s = NFloat 0
    /\ Backend.overall_status s = "healthy".
Proof.
  destruct (health_score_counts_passes_only
              [Android.classify_connectivity true false false;
               Android.classify_connectivity true false false])
    as (s & Hs & _ & Hwarn & _); [discriminate |].
  exists s. split; [exact Hs |].
  apply Hwarn. repeat constructor.
Defined.

(** ** The service *)

Lemma string_of_uint_digits d :
  Py.all_chars not_underscore (NilEmpty.string_of_uint d) = true.
Proof. induction d; simpl; auto. Qed.

Lemma str_int_no_underscore n :
  Py.all_chars not_underscore (Py.str_int n) = true.
Proof.
  unfold Py.str_int, NilZero.string_of_int, NilZero.string_of_uint.
  destruct (Z.to_int n) as [d | d]; destruct d; simpl;
    auto using string_of_uint_digits.
Qed.

Lemma str_int_inj n m : Py.str_int n = Py.str_int m -> n = m.
Proof.
  unfold Py.str_int. intros H. apply DecimalZ.to_int_inj.
  assert (Hnil : forall z, Z.to_int z <> Decimal.Pos Decimal.Nil
                           /\ Z.to_int z <> Decimal.Neg Decimal.Nil).
  { intros [| p | p]; simpl; split; try discriminate;
      intros [= Hp]; now apply DecimalPos.Unsigned.to_uint_nonnil in Hp. }
  destruct (Hnil n) as [Hn1 Hn2], (Hnil m) as [Hm1 Hm2].
  pose proof (NilZero.isi _ Hn1 Hn2) as Hn.
  pose proof (NilZero.isi _ Hm1 Hm2) as Hm.
  rewrite H in Hn. congruence.
Qed.

Lemma append_nil t : "" +:+ t = t.
Proof. reflexivity. Qed.

Lemma append_cons c s t : String c s +:+ t = String c (s +:+ t).
Proof. reflexivity. Qed.

Lemma underscore_splits_once a1 a2 b1 b2 :
  Py.all_chars not_underscore a1 = true ->
  Py.all_chars not_underscore a2 = true ->
  a1 +:+ "_" +:+ b1 = a2 +:+ "_" +:+ b2 -> a1 = a2 /\ b1 = b2.
Proof.
  revert a2. induction a1 as [| c a1 IH]; intros [| c2 a2] H1 H2 Heq;
    rewrite ?append_nil, ?append_cons, ?append_nil in Heq.
  - now injection Heq as ->.
  - injection Heq as <- _. discriminate.
  - injection Heq as -> _. discriminate.
  - injection Heq as -> Heq.
    simpl in H1, H2. apply andb_prop in H1 as [_ H1], H2 as [_ H2].
    destruct (IH a2 H1 H2 Heq) as [-> ->]. now split.
Qed.

Lemma device_id_inj (H1 H2 : Main.Host) r1 r2 :
  Main.id (fst (Main.detect_device H1 r1)) = Main.id (fst (Main.detect_device H2 r2))
  <-> Main.node_hash H1 = Main.node_hash H2
      /\ Main.timestamp H1 = Main.timestamp H2.
Proof.
  unfold Main.detect_device. cbn [fst Main.id]. split.
  - intros Heq.
    rewrite !append_cons, !append_nil in Heq. injection Heq as Heq.
    apply underscore_splits_once in Heq
      as [Ha%str_int_inj Hb%str_int_inj]; auto using str_int_no_underscore.
  - now intros [-> ->].
Qed.

(** Property X27.  A device that [detect_device] has returned is known to the two
    other endpoints under its id, with the capabilities of its system; the
    registrations made before are kept, unless they had the same id.  An id
    that is not registered is answered with the status 404 by both, and
    [run_diagnostics] then runs nothing. *)
Theorem detected_device_is_registered
    (H : Main.Host) (device_registry : gmap string Main.DeviceInfo) :
  let device := fst (Main.detect_device H device_registry) in
  let registry := snd (Main.detect_device H device_registry) in
  Main.get_device_capabilities registry (Main.id device)
  = Main.Ok (Main.mkCapabilities (Main.id device)
               (snd (Main.device_profile (Main.system H)))
               (Main.available_tests (snd (Main.device_profile (Main.system H)))))
  /\ (forall other,
         other <> Main.id device ->
         Main.get_device_capabilities registry other
         = Main.get_device_capabilities device_registry other)
  /\ (forall other,
         registry !! other = None ->
         Main.get_device_capabilities registry other
         = Main.HTTPException 404 "Device not found"
         /\ forall E darwin clock tests h,
              Main.run_diagnostics E darwin clock registry other tests h
              = (Main.HTTPException 404 "Device not found", h)).
Proof.
  cbv zeta. unfold Main.detect_device. cbn [fst snd Main.id].
  split; [| split].
  - unfold Main.get_device_capabilities. now rewrite lookup_insert_eq.
  - intros other Hother. unfold Main.get_device_capabilities.
    now rewrite lookup_insert_ne by congruence.
  - intros other Hnone. unfold Main.get_device_capabilities, Main.run_diagnostics.
    now rewrite Hnone.
Qed.

(** Property X28.  The id of a detected device is made of the hash of the node name
    and of the second of the detection: two detections give the same id
    exactly when both agree.  The second of two such detections replaces the
    registration of the first; otherwise both stay registered. *)
Theorem device_ids_tell_detections_apart
    (H1 H2 : Main.Host) (device_registry : gmap string Main.DeviceInfo) :
  let first := Main.detect_device H1 device_registry in
  let second := Main.detect_device H2 (snd first) in
  (Main.id (fst first) = Main.id (fst second)
   <-> Main.node_hash H1 = Main.node_hash H2
       /\ Main.timestamp H1 = Main.timestamp H2)
  /\ snd second !! Main.id (fst second) = Some (fst second)
  /\ (Main.id (fst first) = Main.id (fst second) ->
      snd second = <[Main.id (fst second) := fst second]> device_registry)
  /\ (Main.id (fst first) <> Main.id (fst second) ->
      snd second !! Main.id (fst first) = Some (fst first)).
Proof.
  cbv zeta. split; [apply device_id_inj |].
  unfold Main.detect_device. cbn [fst snd Main.id].
  split; [apply lookup_insert_eq |]. split.
  - intros Heq. rewrite Heq. apply insert_insert_eq.
  - intros Hne. rewrite lookup_insert_ne by congruence. apply lookup_insert_eq.
Qed.

(** Property X29.  The tests the service advertises against the catalogs of the
    agents.  Every test of the Windows catalog is advertised to a Windows
    device, but of the eleven ids advertised only these four are in the
    catalog.  A Linux device, which the Android agent serves, is advertised
    seven ids, two of which are in the Android catalog; the battery and
    sensors tests of that catalog are not advertised. *)
Theorem advertised_tests_against_the_catalogs (E : Env) :
  (forall id, is_Some (Windows.test_functions E !! id) ->
              In id (advertised "Windows"))
  /\ windows_catalogued E (advertised "Windows")
     = ["battery.health"; "storage.health"; "cpu.temperature"; "memory.test"]
  /\ length (advertised "Windows") = 11%nat
  /\ catalogued E (advertised "Linux") = ["storage.health"; "network.connectivity"]
  /\ length (advertised "Linux") = 7%nat
  /\ ~ In "battery.health" (advertised "Linux")
  /\ ~ In "sensors.test" (advertised "Linux").
Proof.
  assert (Hw : advertised "Windows"
               = ["battery.health"; "battery.charging"; "storage.health";
                  "storage.speed"; "cpu.stress"; "cpu.temperature";
                  "memory.test"; "network.connectivity"; "network.speed";
                  "display.pixels"; "display.touch"]) by (vm_compute; reflexivity).
  assert (Hl : advertised "Linux"
               = ["storage.health"; "storage.speed"; "cpu.stress";
                  "cpu.temperature"; "memory.test"; "network.connectivity";
                  "network.speed"]) by (vm_compute; reflexivity).
  rewrite Hw, Hl.
  split.
  - intros id [f Hf].
    apply WindowsFacts.windows_catalog_inv in Hf
      as [[-> _] | [[-> _] | [[-> _] | [-> _]]]]; simpl; tauto.
  - split; [vm_compute; reflexivity |]. split; [reflexivity |].
    split; [vm_compute; reflexivity |]. split; [reflexivity |].
    split; simpl; intros H;
      repeat (destruct H as [H | H]; [discriminate H |]); exact H.
Qed.

(** Property X30.  A device whose system is not Windows, Linux or Darwin is
    registered with the class "unknown" and no capability; a run on it
    calls no agent and touches nothing, whatever tests are requested: the
    results are empty and the summary says "healthy" with the score 0. *)
Theorem unsupported_system_runs_nothing
    (H : Main.Host) (device_registry : gmap string Main.DeviceInfo) (E : Env)
    (darwin : list string -> History -> Main.Http (list TestResult) * History)
    (clock : Z) (tests : list string) (h : History) :
  Main.system H <> "Windows" -> Main.system H <> "Linux" ->
  Main.system H <> "Darwin" ->
  let device := fst (Main.detect_device H device_registry) in
  let registry := snd (Main.detect_device H device_registry) in
  Main.device_class device = "unknown"
  /\ Main.capabilities device = []
  /\ Main.run_diagnostics E darwin clock registry (Main.id device) tests h
     = (Main.Ok
          (Main.mkDiagnosticResponse device []
             (Backend.mkSummary 0 0 0 0 0 (NInt 0) "healthy")
             ("report_" +:+ Main.id device +:+ "_" +:+ Py.str_int clock)),
        h).
Proof.
  intros Hw%String.eqb_neq Hl%String.eqb_neq Hd%String.eqb_neq. cbv zeta.
  unfold Main.detect_device. cbn [fst snd Main.id Main.device_class Main.capabilities].
  unfold Main.device_profile. rewrite Hw, Hl, Hd. cbn [fst snd].
  split; [reflexivity |]. split; [reflexivity |].
  unfold Main.run_diagnostics. rewrite lookup_insert_eq. cbn [Main.os Main.id].
  unfold Main.agent_results. rewrite Hw, Hl, Hd. reflexivity.
Qed.

(** Property X30 on a FreeBSD host asked for a battery test. *)
Lemma unsupported_system_example :
  Main.run_diagnostics no_phone (fun _ h => (Main.Ok [], h)) 1700000001
    (snd (Main.detect_device freebsd_host ∅))
    (Main.id (fst (Main.detect_device freebsd_host ∅))) ["battery.health"] []
  = (Main.Ok
       (Main.mkDiagnosticResponse (fst (Main.detect_device freebsd_host ∅)) []
          (Backend.mkSummary 0 0 0 0 0 (NInt 0) "healthy")
          ("report_" +:+ Main.id (fst (Main.detect_device freebsd_host ∅))
           +:+ "_" +:+ Py.str_int 1700000001)),
     []).
Proof.
  apply (unsupported_system_runs_nothing freebsd_host ∅ no_phone
           (fun _ h => (Main.Ok [], h)) 1700000001 ["battery.health"] []);
    discriminate.
Defined.
